(** * Women's Health Tracker: the record store of [health_tracker.py]

    A shallow embedding of class [WomensHealthTracker]: the in-memory
    dictionary [self.data], the data file [user_data.json] and the seven
    operations of the class, together with the parts of Python's
    [datetime], [json] and [sorted] that the operations call.

    Python strings are modelled by [string]; a character of the model is a
    code point below 256. *)

From Stdlib Require Import ZArith Lia Ascii String List Bool.
From Stdlib Require Import Sorting.Sorted Sorting.Permutation.
From Stdlib Require Import DecimalString DecimalZ.
From stdpp Require Import base option list strings gmap fin_maps.

Local Open Scope Z_scope.

(** ** What a call does: it returns a value or raises *)

(** The exceptions the modelled calls can raise. *)
Inductive exn := ValueError | OverflowError.

Inductive outcome (A : Type) :=
| Returned (a : A)
| Raised (e : exn).
Arguments Returned {A} a.
Arguments Raised {A} e.

(** ** Built-in functions of Python the tracker uses *)

Module Builtins.

(** [sep.join(l)] *)
Fixpoint join (sep : string) (l : list string) : string :=
  match l with
  | [] => ""
  | [x] => x
  | x :: l => x +:+ sep +:+ join sep l
  end.

(** [str(n)] for an integer: its decimal digits. *)
Definition str_of_Z (n : Z) : string := NilZero.string_of_int (Z.to_int n).

(** [a < b] on strings: the order of the code points, a proper prefix
    first. *)
Definition str_lt (a b : string) : bool := String.ltb a b.

Section Sorted.
Context {A : Type} (key : A → string).

(** Where [x], which stood before every element of the sorted [l], goes: in
    front of the first element whose key is not below its own. *)
Fixpoint insort (x : A) (l : list A) : list A :=
  match l with
  | [] => [x]
  | y :: l' => if str_lt (key y) (key x) then y :: insort x l' else x :: l
  end.

(** [sorted(l, key=key)]: the stable sort of [l] by [key]. *)
Fixpoint sorted (l : list A) : list A :=
  match l with
  | [] => []
  | x :: l' => insort x (sorted l')
  end.
End Sorted.

End Builtins.

(** ** The part of Python's [datetime] the tracker uses *)

Module Datetime.

(** A calendar date, as [datetime.date] holds it. *)
Record date := mkdate { year : Z; month : Z; day : Z }.

Definition MINYEAR : Z := 1.
Definition MAXYEAR : Z := 9999.
(** [date.max.toordinal()] *)
Definition MAXORDINAL : Z := 3652059.

Definition is_leap (y : Z) : bool :=
  (y mod 4 =? 0) && (negb (y mod 100 =? 0) || (y mod 400 =? 0)).

(** [_DAYS_IN_MONTH], for months 1..12. *)
Definition DAYS_IN_MONTH (m : Z) : Z :=
  match m with
  | 1 => 31 | 2 => 28 | 3 => 31 | 4 => 30 | 5 => 31 | 6 => 30
  | 7 => 31 | 8 => 31 | 9 => 30 | 10 => 31 | 11 => 30 | 12 => 31
  | _ => -1
  end.

(** [_DAYS_BEFORE_MONTH], for months 1..12. *)
Definition DAYS_BEFORE_MONTH (m : Z) : Z :=
  match m with
  | 1 => 0 | 2 => 31 | 3 => 59 | 4 => 90 | 5 => 120 | 6 => 151
  | 7 => 181 | 8 => 212 | 9 => 243 | 10 => 273 | 11 => 304 | 12 => 334
  | _ => -1
  end.

Definition days_before_year (y : Z) : Z :=
  let y := y - 1 in y * 365 + y / 4 - y / 100 + y / 400.

Definition days_in_month (y m : Z) : Z :=
  if (m =? 2) && is_leap y then 29 else DAYS_IN_MONTH m.

Definition days_before_month (y m : Z) : Z :=
  DAYS_BEFORE_MONTH m + (if (2 <? m) && is_leap y then 1 else 0).

(** [date.toordinal()]: 0001-01-01 is day 1. *)
Definition ymd2ord (d : date) : Z :=
  days_before_year (year d) + days_before_month (year d) (month d) + day d.

Definition DI400Y : Z := 146097.
Definition DI100Y : Z := 36524.
Definition DI4Y : Z := 1461.

(** [date.fromordinal(n)] *)
Definition ord2ymd (n : Z) : date :=
  let n := n - 1 in
  let n400 := n / DI400Y in let n := n mod DI400Y in
  let y := n400 * 400 + 1 in
  let n100 := n / DI100Y in let n := n mod DI100Y in
  let n4 := n / DI4Y in let n := n mod DI4Y in
  let n1 := n / 365 in let n := n mod 365 in
  let y := y + n100 * 100 + n4 * 4 + n1 in
  if (n1 =? 4) || (n100 =? 4) then mkdate (y - 1) 12 31
  else
    let leapyear := (n1 =? 3) && (negb (n4 =? 24) || (n100 =? 3)) in
    let m := Z.shiftr (n + 50) 5 in
    let preceding :=
      DAYS_BEFORE_MONTH m + (if (2 <? m) && leapyear then 1 else 0) in
    if n <? preceding then
      let m := m - 1 in
      let preceding :=
        preceding - (DAYS_IN_MONTH m + (if (m =? 2) && leapyear then 1 else 0)) in
      mkdate y m (n - preceding + 1)
    else mkdate y m (n - preceding + 1).

(** The checks of the [date(year, month, day)] constructor; [None] is its
    [ValueError]. *)
Definition make_date (y m d : Z) : option date :=
  if (MINYEAR <=? y) && (y <=? MAXYEAR) && (1 <=? m) && (m <=? 12)
     && (1 <=? d) && (d <=? days_in_month y m)
  then Some (mkdate y m d) else None.

(** *** [strptime(s, "%Y-%m-%d")] *)

Definition digit (c : ascii) : option Z :=
  let n := Z.of_N (N_of_ascii c) in
  if (48 <=? n) && (n <=? 57) then Some (n - 48) else None.

(** A character class [[lo-hi]] of digits. *)
Definition digit_in (lo hi : Z) (c : ascii) : option Z :=
  match digit c with
  | Some v => if (lo <=? v) && (v <=? hi) then Some v else None
  | None => None
  end.

(** Ordered choice of a regular expression: the first alternative whose
    continuation matches. *)
Definition orelse {A} (x y : option A) : option A :=
  match x with Some _ => x | None => y end.

Section Directives.
Context {A : Type}.

(** [%Y] is [\d\d\d\d]. *)
Definition re_Y (s : string) (k : Z → string → option A) : option A :=
  match s with
  | String c1 (String c2 (String c3 (String c4 r))) =>
      match digit c1, digit c2, digit c3, digit c4 with
      | Some a, Some b, Some c, Some d =>
          k (1000 * a + 100 * b + 10 * c + d) r
      | _, _, _, _ => None
      end
  | _ => None
  end.

(** [%m] is [1[0-2]|0[1-9]|[1-9]]. *)
Definition re_m (s : string) (k : Z → string → option A) : option A :=
  orelse
    match s with
    | String "1" (String c r) =>
        match digit_in 0 2 c with Some v => k (10 + v) r | None => None end
    | _ => None
    end
    (orelse
       match s with
       | String "0" (String c r) =>
           match digit_in 1 9 c with Some v => k v r | None => None end
       | _ => None
       end
       match s with
       | String c r =>
           match digit_in 1 9 c with Some v => k v r | None => None end
       | _ => None
       end).

(** [%d] is [3[0-1]|[1-2]\d|0[1-9]|[1-9]| [1-9]]. *)
Definition re_d (s : string) (k : Z → string → option A) : option A :=
  orelse
    match s with
    | String "3" (String c r) =>
        match digit_in 0 1 c with Some v => k (30 + v) r | None => None end
    | _ => None
    end
    (orelse
       match s with
       | String c1 (String c2 r) =>
           match digit_in 1 2 c1, digit c2 with
           | Some a, Some b => k (10 * a + b) r
           | _, _ => None
           end
       | _ => None
       end
       (orelse
          match s with
          | String "0" (String c r) =>
              match digit_in 1 9 c with Some v => k v r | None => None end
          | _ => None
          end
          (orelse
             match s with
             | String c r =>
                 match digit_in 1 9 c with Some v => k v r | None => None end
             | _ => None
             end
             match s with
             | String " " (String c r) =>
                 match digit_in 1 9 c with Some v => k v r | None => None end
             | _ => None
             end))).

(** A literal character of the format. *)
Definition re_lit (c : ascii) (s : string) (k : string → option A) : option A :=
  match s with
  | String c' r => if Ascii.eqb c c' then k r else None
  | _ => None
  end.
End Directives.

(** [re.match] of the compiled format: the three fields and the rest of the
    input. *)
Definition match_format (s : string) : option (Z * Z * Z * string) :=
  re_Y s (λ y s, re_lit "-" s (λ s, re_m s (λ m s, re_lit "-" s (λ s,
  re_d s (λ d r, Some (y, m, d, r)))))).

(** [datetime.strptime(s, "%Y-%m-%d")]; [None] is the [ValueError] raised
    when the input does not match, when unconverted data remains, or when
    the fields are not a date of the calendar. *)
Definition strptime (s : string) : option date :=
  match match_format s with
  | Some (y, m, d, EmptyString) => make_date y m d
  | _ => None
  end.

(** *** [timedelta(days=n)] and date arithmetic *)

(** [timedelta(days=n)]: [None] is the [OverflowError] for a magnitude above
    999999999 days. *)
Definition timedelta (n : Z) : option Z :=
  if Z.abs n <=? 999999999 then Some n else None.

(** [d + delta]: [None] is the [OverflowError] of a result outside
    [date.min .. date.max]. *)
Definition add (d : date) (delta : Z) : option date :=
  match timedelta (ymd2ord d + delta) with
  | Some o => if (0 <? o) && (o <=? MAXORDINAL) then Some (ord2ymd o) else None
  | None => None
  end.

(** [d - delta] is [d + (-delta)]. *)
Definition sub (d : date) (delta : Z) : option date := add d (- delta).

(** *** [str(d)], that is ["%04d-%02d-%02d" % (year, month, day)] *)

Fixpoint zeros (n : nat) : string :=
  match n with O => "" | S n => String "0" (zeros n) end.

(** ["%0wd" % n] for [n >= 0]. *)
Definition zfill (w : nat) (n : Z) : string :=
  let s := Builtins.str_of_Z n in zeros (w - String.length s) +:+ s.

Definition isoformat (d : date) : string :=
  zfill 4 (year d) +:+ "-" +:+ zfill 2 (month d) +:+ "-" +:+ zfill 2 (day d).

End Datetime.

(** ** The part of Python's [json] the tracker uses *)

Module Json.

(** The objects [json.dump] writes and [json.load] builds. *)
#[local] Unset Elimination Schemes.
Inductive value :=
| Null
| Bool (b : bool)
| Int (n : Z)
| Str (s : string)
| Arr (items : list value)
| Obj (members : list (string * value)).
#[local] Set Elimination Schemes.

Definition dquote : ascii := "034".
Definition backslash : ascii := "092".
Definition newline : ascii := "010".

Definition code (c : ascii) : Z := Z.of_N (N_of_ascii c).

(** *** [json.dumps(obj, indent=4)] *)

(** One digit of ['{0:04x}'.format(n)]. *)
Definition hex_char (n : Z) : ascii :=
  ascii_of_N (Z.to_N (if n <? 10 then 48 + n else 87 + n)).

(** [ESCAPE_ASCII] and [ESCAPE_DCT]: what [ensure_ascii=True] writes for one
    character. *)
Definition escape_char (c : ascii) : string :=
  let n := code c in
  if n =? 34 then String backslash (String dquote "")
  else if n =? 92 then String backslash (String backslash "")
  else if n =? 8 then String backslash "b"
  else if n =? 12 then String backslash "f"
  else if n =? 10 then String backslash "n"
  else if n =? 13 then String backslash "r"
  else if n =? 9 then String backslash "t"
  else if (32 <=? n) && (n <=? 126) then String c ""
  else String backslash
         (String "u" (String "0" (String "0"
            (String (hex_char (n / 16)) (String (hex_char (n mod 16)) ""))))).

Fixpoint escape (s : string) : string :=
  match s with
  | "" => ""
  | String c r => escape_char c +:+ escape r
  end.

Definition encode_string (s : string) : string :=
  String dquote (escape s +:+ String dquote "").

Fixpoint spaces (n : nat) : string :=
  match n with O => "" | S n => String " " (spaces n) end.

(** ['\n' + ' ' * (4 * level)] *)
Definition newline_indent (lvl : nat) : string :=
  String newline (spaces (4 * lvl)).

(** [item_separator + newline_indent] *)
Definition item_separator (lvl : nat) : string := "," +:+ newline_indent lvl.

Fixpoint encode (lvl : nat) (v : value) : string :=
  match v with
  | Null => "null"
  | Bool true => "true"
  | Bool false => "false"
  | Int n => Builtins.str_of_Z n
  | Str s => encode_string s
  | Arr [] => "[]"
  | Arr items =>
      "[" +:+ newline_indent (S lvl)
      +:+ Builtins.join (item_separator (S lvl)) (map (encode (S lvl)) items)
      +:+ newline_indent lvl +:+ "]"
  | Obj [] => "{}"
  | Obj members =>
      "{" +:+ newline_indent (S lvl)
      +:+ Builtins.join (item_separator (S lvl))
            (map (λ '(k, x), encode_string k +:+ ": " +:+ encode (S lvl) x)
               members)
      +:+ newline_indent lvl +:+ "}"
  end.

Definition dumps (v : value) : string := encode 0 v.

(** *** [json.loads(text)] *)

(** What decoding a text gives: an object, a [JSONDecodeError], or an object
    the model has no term for (a float, a character above 255). *)
Inductive result (A : Type) :=
| Ok (a : A)
| DecodeError
| Outside.
Arguments Ok {A} a.
Arguments DecodeError {A}.
Arguments Outside {A}.

Definition bind {A B} (x : result A) (f : A → result B) : result B :=
  match x with
  | Ok a => f a
  | DecodeError => DecodeError
  | Outside => Outside
  end.

(** [WHITESPACE] is [[ \t\n\r]*]. *)
Definition is_ws (c : ascii) : bool :=
  let n := code c in (n =? 32) || (n =? 9) || (n =? 10) || (n =? 13).

Fixpoint skip_ws (s : string) : string :=
  match s with
  | String c r => if is_ws c then skip_ws r else s
  | "" => ""
  end.

(** One digit of [[0-9A-Fa-f]]. *)
Definition hex_val (c : ascii) : option Z :=
  let n := code c in
  if (48 <=? n) && (n <=? 57) then Some (n - 48)
  else if (97 <=? n) && (n <=? 102) then Some (n - 87)
  else if (65 <=? n) && (n <=? 70) then Some (n - 55)
  else None.

(** [BACKSLASH]: the one-letter escapes. *)
Definition unescape (e : ascii) : option ascii :=
  let n := code e in
  if n =? 34 then Some dquote
  else if n =? 92 then Some backslash
  else if n =? 47 then Some "/"%char
  else if n =? 98 then Some "008"%char
  else if n =? 102 then Some "012"%char
  else if n =? 110 then Some "010"%char
  else if n =? 114 then Some "013"%char
  else if n =? 116 then Some "009"%char
  else None.

Definition prepend (c : ascii) (x : result (string * string)) :
  result (string * string) :=
  bind x (λ '(s, r), Ok (String c s, r)).

(** [scanstring], strict, from the character after the opening quote: the
    string and the text after its closing quote. *)
Fixpoint scanstring (s : string) : result (string * string) :=
  match s with
  | "" => DecodeError
  | String c r =>
      if code c =? 34 then Ok ("", r)
      else if code c =? 92 then
        match r with
        | "" => DecodeError
        | String e r' =>
            if code e =? 117 then
              match r' with
              | String h1 (String h2 (String h3 (String h4 r''))) =>
                  match hex_val h1, hex_val h2, hex_val h3, hex_val h4 with
                  | Some a, Some b, Some c, Some d =>
                      let uni := 4096 * a + 256 * b + 16 * c + d in
                      if uni <? 256
                      then prepend (ascii_of_N (Z.to_N uni)) (scanstring r'')
                      else Outside
                  | _, _, _, _ => DecodeError
                  end
              | _ => DecodeError
              end
            else
              match unescape e with
              | Some ch => prepend ch (scanstring r')
              | None => DecodeError
              end
        end
      else if code c <? 32 then DecodeError
      else prepend c (scanstring r)
  end.

Definition is_digit (c : ascii) : bool := (48 <=? code c) && (code c <=? 57).

(** The longest run of digits at the head of a text, and the rest. *)
Fixpoint span_digits (s : string) : string * string :=
  match s with
  | String c r =>
      if is_digit c then let '(ds, r') := span_digits r in (String c ds, r')
      else ("", s)
  | "" => ("", "")
  end.

(** The integer part of [NUMBER_RE]: an optional minus sign, then [0] or a
    digit of [1-9] followed by digits. *)
Definition match_integer (s : string) : option (string * string) :=
  let '(sign, s1) :=
    match s with
    | String c r => if code c =? 45 then ("-", r) else ("", s)
    | "" => ("", s)
    end in
  match s1 with
  | String c r =>
      if code c =? 48 then Some (sign +:+ "0", r)
      else if is_digit c then
        let '(ds, r') := span_digits r in Some (sign +:+ String c ds, r')
      else None
  | "" => None
  end.

(** The fraction of [NUMBER_RE]: [(\.[0-9]+)?]; the text after it when it is
    there. *)
Definition match_frac (s : string) : option string :=
  match s with
  | String c (String d r) =>
      if (code c =? 46) && is_digit d then Some (snd (span_digits r)) else None
  | _ => None
  end.

(** The exponent of [NUMBER_RE]: [([eE][-+]?[0-9]+)?]. *)
Definition match_exp (s : string) : option string :=
  match s with
  | String c r =>
      if (code c =? 101) || (code c =? 69) then
        let r1 :=
          match r with
          | String g r' => if (code g =? 45) || (code g =? 43) then r' else r
          | "" => r
          end in
        match r1 with
        | String d r2 => if is_digit d then Some (snd (span_digits r2)) else None
        | "" => None
        end
      else None
  | "" => None
  end.

(** [int(text)] for a text of [match_integer]. *)
Definition int_of_text (s : string) : Z :=
  match NilZero.int_of_string s with
  | Some d => Z.of_int d
  | None => 0
  end.

(** A number: an integer, or [Outside] for a float. *)
Definition scan_number (s : string) : result (value * string) :=
  match match_integer s with
  | None => DecodeError
  | Some (t, r) =>
      match match_frac r, match_exp (default r (match_frac r)) with
      | None, None => Ok (Int (int_of_text t), r)
      | _, _ => Outside
      end
  end.

(** [s] starts with [p]: the text after [p]. *)
Fixpoint strip_prefix (p s : string) : option string :=
  match p, s with
  | "", _ => Some s
  | String a p, String b s => if Ascii.eqb a b then strip_prefix p s else None
  | _, _ => None
  end.

(** [scan_once], [JSONArray] and [JSONObject].  The fuel bounds the calls;
    more fuel than the text has characters is enough. *)
Fixpoint scan_once (fuel : nat) (s : string) : result (value * string) :=
  match fuel with
  | O => Outside
  | S fuel =>
      match s with
      | "" => DecodeError
      | String c r =>
          if code c =? 34 then
            bind (scanstring r) (λ '(t, r'), Ok (Str t, r'))
          else if code c =? 123 then
            match skip_ws r with
            | String c' r' =>
                if code c' =? 125 then Ok (Obj [], r')
                else if code c' =? 34 then
                  bind (scan_members fuel r') (λ '(l, r''), Ok (Obj l, r''))
                else DecodeError
            | "" => DecodeError
            end
          else if code c =? 91 then
            match skip_ws r with
            | String c' r' =>
                if code c' =? 93 then Ok (Arr [], r')
                else bind (scan_items fuel (String c' r'))
                       (λ '(l, r''), Ok (Arr l, r''))
            | "" => DecodeError
            end
          else
            match strip_prefix "null" s, strip_prefix "true" s,
                  strip_prefix "false" s with
            | Some r', _, _ => Ok (Null, r')
            | _, Some r', _ => Ok (Bool true, r')
            | _, _, Some r' => Ok (Bool false, r')
            | _, _, _ =>
                match strip_prefix "NaN" s, strip_prefix "Infinity" s,
                      strip_prefix "-Infinity" s with
                | None, None, None => scan_number s
                | _, _, _ => Outside
                end
            end
      end
  end

(** The items of an array, from the first character of an item to the
    closing bracket. *)
with scan_items (fuel : nat) (s : string) : result (list value * string) :=
  match fuel with
  | O => Outside
  | S fuel =>
      bind (scan_once fuel s) (λ '(v, r),
        match skip_ws r with
        | String c r' =>
            if code c =? 93 then Ok ([v], r')
            else if code c =? 44 then
              bind (scan_items fuel (skip_ws r')) (λ '(l, r''), Ok (v :: l, r''))
            else DecodeError
        | "" => DecodeError
        end)
  end

(** The members of an object, from the character after the opening quote of
    a key to the closing brace. *)
with scan_members (fuel : nat) (s : string) :
    result (list (string * value) * string) :=
  match fuel with
  | O => Outside
  | S fuel =>
      bind (scanstring s) (λ '(k, r),
        match skip_ws r with
        | String c r1 =>
            if code c =? 58 then
              bind (scan_once fuel (skip_ws r1)) (λ '(v, r2),
                match skip_ws r2 with
                | String c2 r3 =>
                    if code c2 =? 125 then Ok ([(k, v)], r3)
                    else if code c2 =? 44 then
                      match skip_ws r3 with
                      | String c3 r4 =>
                          if code c3 =? 34 then
                            bind (scan_members fuel r4)
                              (λ '(l, r5), Ok ((k, v) :: l, r5))
                          else DecodeError
                      | "" => DecodeError
                      end
                    else DecodeError
                | "" => DecodeError
                end)
            else DecodeError
        | "" => DecodeError
        end)
  end.

(** [json.loads]: leading white space, one object, trailing white space. *)
Definition loads (s : string) : result value :=
  bind (scan_once (S (String.length s)) (skip_ws s)) (λ '(v, r),
    match skip_ws r with
    | "" => Ok v
    | _ => DecodeError
    end).

End Json.

(** ** The tracker: [class WomensHealthTracker] *)

(** An entry of a record's ["symptoms"] list: [{"symptom": .., "date": ..}]. *)
Module Symptom.
Record t := mk { symptom : string; date : string }.
End Symptom.

(** An entry of a record's ["reminders"] list:
    [{"reminder": .., "date": ..}]. *)
Module Reminder.
Record t := mk { reminder : string; date : string }.
End Reminder.

Module Tracker.

(** The value [self.data] holds for one username. *)
Record UserRecord := mkUserRecord {
  last_cycle_date : option string;
  cycle_length : Z;
  symptoms : list Symptom.t;
  reminders : list Reminder.t
}.

(** The tracker and its data file: [self.data], and the text of
    [DATA_FILE] ([None] when the file does not exist). *)
Record tracker := mkTracker {
  data : gmap string UserRecord;
  DATA_FILE : option string
}.

(** *** The objects of [self.data] as [json] sees them *)

Definition json_of_symptom (e : Symptom.t) : Json.value :=
  Json.Obj [("symptom", Json.Str (Symptom.symptom e));
            ("date", Json.Str (Symptom.date e))].

Definition json_of_reminder (e : Reminder.t) : Json.value :=
  Json.Obj [("reminder", Json.Str (Reminder.reminder e));
            ("date", Json.Str (Reminder.date e))].

Definition json_of_record (r : UserRecord) : Json.value :=
  Json.Obj
    [("last_cycle_date",
       match last_cycle_date r with Some d => Json.Str d | None => Json.Null end);
     ("cycle_length", Json.Int (cycle_length r));
     ("symptoms", Json.Arr (map json_of_symptom (symptoms r)));
     ("reminders", Json.Arr (map json_of_reminder (reminders r)))].

(** The dictionary is written in the order of [map_to_list]; no operation
    of the tracker reads the order of its keys. *)
Definition json_of_data (d : gmap string UserRecord) : Json.value :=
  Json.Obj (map (λ '(u, r), (u, json_of_record r)) (map_to_list d)).

Definition symptom_of_json (v : Json.value) : option Symptom.t :=
  match v with
  | Json.Obj [("symptom", Json.Str s); ("date", Json.Str d)] =>
      Some (Symptom.mk s d)
  | _ => None
  end.

Definition reminder_of_json (v : Json.value) : option Reminder.t :=
  match v with
  | Json.Obj [("reminder", Json.Str s); ("date", Json.Str d)] =>
      Some (Reminder.mk s d)
  | _ => None
  end.

Definition record_of_json (v : Json.value) : option UserRecord :=
  match v with
  | Json.Obj [("last_cycle_date", d); ("cycle_length", Json.Int n);
              ("symptoms", Json.Arr ss); ("reminders", Json.Arr rs)] =>
      d' ← match d with
           | Json.Null => Some None
           | Json.Str s => Some (Some s)
           | _ => None
           end;
      ss' ← mapM symptom_of_json ss;
      rs' ← mapM reminder_of_json rs;
      Some (mkUserRecord d' n ss' rs')
  | _ => None
  end.

(** [dict(pairs)]: a later pair of the text replaces an earlier one with the
    same key. *)
Definition data_of_json (v : Json.value) : option (gmap string UserRecord) :=
  match v with
  | Json.Obj members =>
      foldl (λ acc '(u, x),
               d ← acc; r ← record_of_json x; Some (<[u := r]> d))
            (Some ∅) members
  | _ => None
  end.

(** *** [load_data] and [save_data] *)

(** [load_data]: the dictionary of the file, the empty dictionary when the
    file is missing or does not decode; [None] when the file holds an object
    that is not a dictionary of records as [register_user] makes them. *)
Definition load_data (file : option string) : option (gmap string UserRecord) :=
  match file with
  | Some text =>
      match Json.loads text with
      | Json.Ok v => data_of_json v
      | Json.DecodeError => Some ∅
      | Json.Outside => None
      end
  | None => Some ∅
  end.

Definition save_data (t : tracker) : tracker :=
  mkTracker (data t) (Some (Json.dumps (json_of_data (data t)))).

(** [__init__] *)
Definition init (file : option string) : option tracker :=
  d ← load_data file; Some (mkTracker d file).

(** *** The operations *)

Definition USER_NOT_FOUND : string := "Error: User not found.".
Definition INVALID_DATE : string :=
  "Error: Invalid date format. Use YYYY-MM-DD.".
Definition NO_CYCLE_DETAILS : string :=
  "Error: No cycle details found. Please set your cycle details first.".
Definition DUPLICATE_USER (username : string) : string :=
  "Error: User '" +:+ username +:+ "' already exists.".

(** What an operation gives: what it returns or raises, and the tracker
    after it. *)
Abbreviation result := (outcome string * tracker)%type.

Definition register_user (username : string) (t : tracker) : result :=
  match data t !! username with
  | Some _ => (Returned (DUPLICATE_USER username), t)
  | None =>
      let t' :=
        mkTracker (<[username := mkUserRecord None 28 [] []]> (data t))
                  (DATA_FILE t) in
      (Returned ("User '" +:+ username +:+ "' registered successfully!"),
       save_data t')
  end.

Definition set_cycle_details (username last_cycle_date' : string)
    (cycle_length' : Z) (t : tracker) : result :=
  match data t !! username with
  | None => (Returned USER_NOT_FOUND, t)
  | Some r =>
      match Datetime.strptime last_cycle_date' with
      | None => (Returned INVALID_DATE, t)
      | Some _ =>
          let r' :=
            mkUserRecord (Some last_cycle_date') cycle_length'
                         (symptoms r) (reminders r) in
          let t' := mkTracker (<[username := r']> (data t)) (DATA_FILE t) in
          (Returned ("Cycle details updated for '" +:+ username +:+ "'."),
           save_data t')
      end
  end.

(** [now] is the date [datetime.now().date()] reads from the clock. *)
Definition add_symptom (now : Datetime.date) (username symptom : string)
    (t : tracker) : result :=
  match data t !! username with
  | None => (Returned USER_NOT_FOUND, t)
  | Some r =>
      let e := Symptom.mk symptom (Datetime.isoformat now) in
      let r' :=
        mkUserRecord (last_cycle_date r) (cycle_length r)
                     (symptoms r ++ [e]) (reminders r) in
      let t' := mkTracker (<[username := r']> (data t)) (DATA_FILE t) in
      (Returned ("Symptom '" +:+ symptom +:+ "' logged for '" +:+ username
                 +:+ "'."),
       save_data t')
  end.

(** [if not last_cycle_date]: [None] and the empty string are false. *)
Definition truthy (s : option string) : option string :=
  match s with
  | Some "" => None
  | _ => s
  end.

(** [datetime.strptime(last_cycle_date, "%Y-%m-%d")
     + timedelta(days=cycle_length)] *)
Definition next_cycle_date (last_cycle_date' : string) (cycle_length' : Z) :
    outcome Datetime.date :=
  match Datetime.strptime last_cycle_date' with
  | None => Raised ValueError
  | Some d =>
      match Datetime.timedelta cycle_length' with
      | None => Raised OverflowError
      | Some delta =>
          match Datetime.add d delta with
          | None => Raised OverflowError
          | Some next => Returned next
          end
      end
  end.

Definition add_reminder (username reminder : string) (days_before : Z)
    (t : tracker) : result :=
  match data t !! username with
  | None => (Returned USER_NOT_FOUND, t)
  | Some r =>
      match truthy (last_cycle_date r) with
      | None => (Returned NO_CYCLE_DETAILS, t)
      | Some d =>
          match next_cycle_date d (cycle_length r) with
          | Raised e => (Raised e, t)
          | Returned next =>
              match Datetime.timedelta days_before with
              | None => (Raised OverflowError, t)
              | Some delta =>
                  match Datetime.sub next delta with
                  | None => (Raised OverflowError, t)
                  | Some reminder_date =>
                      let e :=
                        Reminder.mk reminder
                          (Datetime.isoformat reminder_date) in
                      let r' :=
                        mkUserRecord (last_cycle_date r) (cycle_length r)
                                     (symptoms r) (reminders r ++ [e]) in
                      let t' :=
                        mkTracker (<[username := r']> (data t))
                                  (DATA_FILE t) in
                      (Returned ("Reminder '" +:+ reminder +:+ "' added for "
                                 +:+ username +:+ " on "
                                 +:+ Datetime.isoformat reminder_date +:+ "."),
                       save_data t')
                  end
              end
          end
      end
  end.

(** One line of [view_reminders]. *)
Definition reminder_line (e : Reminder.t) : string :=
  "- " +:+ Reminder.reminder e +:+ " on " +:+ Reminder.date e.

Definition view_reminders (username : string) (t : tracker) : result :=
  match data t !! username with
  | None => (Returned USER_NOT_FOUND, t)
  | Some r =>
      match reminders r with
      | [] => (Returned "No reminders set.", t)
      | rs =>
          (Returned
             (Builtins.join (String Json.newline "")
                (map reminder_line (Builtins.sorted Reminder.date rs))),
           t)
      end
  end.

Definition predict_next_cycle (username : string) (t : tracker) : result :=
  match data t !! username with
  | None => (Returned USER_NOT_FOUND, t)
  | Some r =>
      match truthy (last_cycle_date r) with
      | None => (Returned NO_CYCLE_DETAILS, t)
      | Some d =>
          match next_cycle_date d (cycle_length r) with
          | Raised e => (Raised e, t)
          | Returned next =>
              (Returned ("Next cycle for " +:+ username +:+ " is predicted on "
                         +:+ Datetime.isoformat next +:+ "."),
               t)
          end
      end
  end.

(** One line of [view_symptoms]. *)
Definition symptom_line (e : Symptom.t) : string :=
  "- " +:+ Symptom.symptom e +:+ " (logged on " +:+ Symptom.date e +:+ ")".

Definition view_symptoms (username : string) (t : tracker) : result :=
  match data t !! username with
  | None => (Returned USER_NOT_FOUND, t)
  | Some r =>
      match symptoms r with
      | [] => (Returned "No symptoms logged.", t)
      | ss =>
          (Returned
             (Builtins.join (String Json.newline "") (map symptom_line ss)),
           t)
      end
  end.

(** *** The menu of [main]: one call per choice *)

Inductive op :=
| RegisterUser (username : string)
| SetCycleDetails (username last_cycle_date' : string) (cycle_length' : Z)
| AddSymptom (now : Datetime.date) (username symptom : string)
| AddReminder (username reminder : string) (days_before : Z)
| ViewReminders (username : string)
| PredictNextCycle (username : string)
| ViewSymptoms (username : string).

Definition run (o : op) (t : tracker) : result :=
  match o with
  | RegisterUser u => register_user u t
  | SetCycleDetails u d n => set_cycle_details u d n t
  | AddSymptom now u s => add_symptom now u s t
  | AddReminder u r n => add_reminder u r n t
  | ViewReminders u => view_reminders u t
  | PredictNextCycle u => predict_next_cycle u t
  | ViewSymptoms u => view_symptoms u t
  end.

(** The operations the specification calls read-only. *)
Definition read_only (o : op) : bool :=
  match o with
  | ViewReminders _ | PredictNextCycle _ | ViewSymptoms _ => true
  | _ => false
  end.

(** The tracker after a sequence of calls, each on the tracker the one
    before left. *)
Definition run_all (os : list op) (t : tracker) : tracker :=
  foldl (λ t o, snd (run o t)) t os.

(** The data file holds the dump of [self.data]. *)
Definition persisted (t : tracker) : Prop :=
  DATA_FILE t = Some (Json.dumps (json_of_data (data t))).

(** A tracker the operations can build, starting without a data file. *)
Definition reachable (t : tracker) : Prop :=
  ∃ os, t = run_all os (mkTracker ∅ None).

End Tracker.

(** ** The menu: [main] *)

Module Main.
Import Tracker.

(** [c.isspace()] for a character below 256. *)
Definition isspace (c : ascii) : bool :=
  let n := Json.code c in
  ((9 <=? n) && (n <=? 13)) || ((28 <=? n) && (n <=? 32))
  || (n =? 133) || (n =? 160).

Fixpoint lstrip (s : string) : string :=
  match s with
  | String c r => if isspace c then lstrip r else s
  | "" => ""
  end.

Fixpoint rstrip (s : string) : string :=
  match s with
  | "" => ""
  | String c r =>
      match rstrip r with
      | "" => if isspace c then "" else String c ""
      | r' => String c r'
      end
  end.

(** [s.strip()] *)
Definition strip (s : string) : string := rstrip (lstrip s).

(** The digits of [int(s)], from left to right: single underscores may
    stand between digits.  The value and the number of digits. *)
Fixpoint parse_digits (s : string) (after_digit : bool) (acc : Z) (n : nat) :
    option (Z * nat) :=
  match s with
  | "" => if after_digit then Some (acc, n) else None
  | String c r =>
      match Datetime.digit c with
      | Some v => parse_digits r true (10 * acc + v) (S n)
      | None =>
          if (Json.code c =? 95) && after_digit
          then parse_digits r false acc n
          else None
      end
  end.

(** [sys.get_int_max_str_digits()] *)
Definition MAX_STR_DIGITS : nat := 4300.

(** [int(s)] for a string; [None] is its [ValueError]. *)
Definition int_of_str (s : string) : option Z :=
  let s := strip s in
  let '(negative, body) :=
    match s with
    | String c r =>
        if Json.code c =? 45 then (true, r)
        else if Json.code c =? 43 then (false, r)
        else (false, s)
    | "" => (false, s)
    end in
  match parse_digits body false 0 0 with
  | Some (v, n) =>
      if (n <=? MAX_STR_DIGITS)%nat then Some (if negative then - v else v)
      else None
  | None => None
  end.

(** What the program writes: [print(s)], and the prompt of [input(prompt)]
    before it reads a line. *)
Inductive event :=
| Print (s : string)
| Input (prompt : string).

(** How [main] ends: it returns, or it raises the [EOFError] of [input] at
    the end of the input or the exception of an operation. *)
Inductive ending :=
| Returns
| RaisesEOFError
| Raises (e : exn).

(** What was written, how the program ended and the tracker it had. *)
Abbreviation session := (list event * ending * tracker)%type.

(** What is written first, then what a session writes. *)
Definition emit (evs : list event) (r : session) : session :=
  let '(out, e, t) := r in (evs ++ out, e, t).

(** [print(prefix + tracker.operation(..))], then the rest of the loop. *)
Definition call (prefix : string) (r : outcome string * tracker)
    (continue : tracker → session) : session :=
  match fst r with
  | Returned msg => emit [Print (prefix +:+ msg)] (continue (snd r))
  | Raised e => ([], Raises e, snd r)
  end.

Definition MENU : list event :=
  [Print (String Json.newline "Menu:");
   Print "1. Register User";
   Print "2. Set Cycle Details";
   Print "3. Add Symptom";
   Print "4. Add Reminder";
   Print "5. View Reminders";
   Print "6. Predict Next Cycle";
   Print "7. View Symptoms";
   Print "8. Exit"].

Definition USERNAME : event := Input "Enter your username: ".

(** The [while True] loop on the lines the input still has.  [clock k] is
    the date [datetime.now()] gives after [k] lines have been read. *)
Fixpoint loop (clock : nat → Datetime.date) (k : nat) (inputs : list string)
    (t : tracker) {struct inputs} : session :=
  emit (MENU ++ [Input "Choose an option (1-8): "])
    match inputs with
    | [] => ([], RaisesEOFError, t)
    | l0 :: inputs =>
        let choice := strip l0 in
        if String.eqb choice "1" then
          emit [USERNAME]
            match inputs with
            | [] => ([], RaisesEOFError, t)
            | l1 :: inputs =>
                call "" (register_user (strip l1) t)
                  (loop clock (2 + k)%nat inputs)
            end
        else if String.eqb choice "2" then
          emit [USERNAME]
            match inputs with
            | [] => ([], RaisesEOFError, t)
            | l1 :: inputs =>
                emit [Input "Enter last cycle date (YYYY-MM-DD): "]
                  match inputs with
                  | [] => ([], RaisesEOFError, t)
                  | l2 :: inputs =>
                      emit [Input "Enter cycle length in days: "]
                        match inputs with
                        | [] => ([], RaisesEOFError, t)
                        | l3 :: inputs =>
                            match int_of_str (strip l3) with
                            | None =>
                                emit
                                  [Print
                                     "Error: Cycle length must be an integer."]
                                  (loop clock (4 + k)%nat inputs t)
                            | Some cycle_length' =>
                                call ""
                                  (set_cycle_details (strip l1) (strip l2)
                                     cycle_length' t)
                                  (loop clock (4 + k)%nat inputs)
                            end
                        end
                  end
            end
        else if String.eqb choice "3" then
          emit [USERNAME]
            match inputs with
            | [] => ([], RaisesEOFError, t)
            | l1 :: inputs =>
                emit [Input "Enter the symptom: "]
                  match inputs with
                  | [] => ([], RaisesEOFError, t)
                  | l2 :: inputs =>
                      call ""
                        (add_symptom (clock (3 + k)%nat) (strip l1) (strip l2) t)
                        (loop clock (3 + k)%nat inputs)
                  end
            end
        else if String.eqb choice "4" then
          emit [USERNAME]
            match inputs with
            | [] => ([], RaisesEOFError, t)
            | l1 :: inputs =>
                emit [Input "Enter the reminder: "]
                  match inputs with
                  | [] => ([], RaisesEOFError, t)
                  | l2 :: inputs =>
                      emit [Input "Set the number of days before next cycle: "]
                        match inputs with
                        | [] => ([], RaisesEOFError, t)
                        | l3 :: inputs =>
                            match int_of_str (strip l3) with
                            | None =>
                                emit
                                  [Print
                                     "Error: Number of days must be an integer."]
                                  (loop clock (4 + k)%nat inputs t)
                            | Some days_before =>
                                call ""
                                  (add_reminder (strip l1) (strip l2)
                                     days_before t)
                                  (loop clock (4 + k)%nat inputs)
                            end
                        end
                  end
            end
        else if String.eqb choice "5" then
          emit [USERNAME]
            match inputs with
            | [] => ([], RaisesEOFError, t)
            | l1 :: inputs =>
                call (String.append "Reminders:" (String Json.newline ""))
                  (view_reminders (strip l1) t)
                  (loop clock (2 + k)%nat inputs)
            end
        else if String.eqb choice "6" then
          emit [USERNAME]
            match inputs with
            | [] => ([], RaisesEOFError, t)
            | l1 :: inputs =>
                call "" (predict_next_cycle (strip l1) t)
                  (loop clock (2 + k)%nat inputs)
            end
        else if String.eqb choice "7" then
          emit [USERNAME]
            match inputs with
            | [] => ([], RaisesEOFError, t)
            | l1 :: inputs =>
                call (String.append "Symptoms:" (String Json.newline ""))
                  (view_symptoms (strip l1) t)
                  (loop clock (2 + k)%nat inputs)
            end
        else if String.eqb choice "8" then
          ([Print "Thank you for using Women's Health Tracker!"], Returns, t)
        else
          emit [Print "Invalid choice. Please try again."]
            (loop clock (1 + k)%nat inputs t)
    end.

(** What [load_data] prints when the data file does not decode. *)
Definition load_events (file : option string) : list event :=
  match file with
  | Some text =>
      match Json.loads text with
      | Json.DecodeError =>
          [Print "Error: Data file is corrupted. Reinitializing data."]
      | _ => []
      end
  | None => []
  end.

(** [main()], with the data file it finds, the clock and the lines of the
    input; [None] when the data file holds an object the model has no
    dictionary for. *)
Definition main (file : option string) (clock : nat → Datetime.date)
    (inputs : list string) : option session :=
  t ← init file;
  Some (emit (load_events file
              ++ [Print "=== Welcome to Women's Health Tracker ==="])
          (loop clock 0 inputs t)).

End Main.

(** * Definitions the proofs use *)

Module Calendar.
Import Datetime.

(** The same day and month, [k] years later. *)
Definition shift_year (k : Z) (d : date) : date :=
  mkdate (year d + k) (month d) (day d).

(** The fields of [d] are those of a day of the calendar. *)
Definition valid_day (d : date) : bool :=
  (1 <=? month d) && (month d <=? 12)
  && (1 <=? day d) && (day d <=? days_in_month (year d) (month d)).

(** [d] is a date [datetime.date] can hold. *)
Definition valid (d : date) : bool :=
  (MINYEAR <=? year d) && (year d <=? MAXYEAR) && valid_day d.

(** Day [r + 1] of the first 400 years: [ord2ymd] gives a day of the
    calendar, in the years 1..400, whose ordinal is [r + 1]; the last 366
    days are those of year 400. *)
Abbreviation cycle_ok :=
  (λ r : Z,
     let d := ord2ymd (r + 1) in
     (ymd2ord d =? r + 1) && valid_day d && (1 <=? year d)
     && (year d <=? (if r <=? 145730 then 399 else 400))).

(** The character of the decimal digit [k]. *)
Definition dchar (k : Z) : ascii := ascii_of_N (Z.to_N (48 + k)).

(** The four digits of [n], for [0 <= n <= 9999]. *)
Definition digits4 (n : Z) : string :=
  String (dchar (n / 1000)) (String (dchar (n / 100 mod 10))
    (String (dchar (n / 10 mod 10)) (String (dchar (n mod 10)) ""))).

(** The two digits of [n], for [0 <= n <= 99]. *)
Definition digits2 (n : Z) : string :=
  String (dchar (n / 10)) (String (dchar (n mod 10)) "").

(** The date as the number [yyyymmdd]. *)
Definition date_key (d : date) : Z := year d * 10000 + month d * 100 + day d.

(** [p] holds of the [n] integers from [z] on. *)
Fixpoint all_from (p : Z → bool) (n : nat) (z : Z) : bool :=
  match n with
  | O => true
  | S n => p z && all_from p n (z + 1)
  end.

End Calendar.

(** What the proofs about [json] use. *)
Module JsonAux.
Import Json.

(** A text that can follow a number: it does not go on with a digit, a
    fraction or an exponent. *)
Definition delim (s : string) : bool :=
  match s with
  | "" => true
  | String c _ =>
      negb (is_digit c) && negb (code c =? 46) && negb (code c =? 101)
      && negb (code c =? 69)
  end.

(** A text whose first character is not white space, nor a closing bracket
    or brace. *)
Definition starts_value (s : string) : bool :=
  match s with
  | "" => false
  | String c _ =>
      negb (is_ws c) && negb (code c =? 93) && negb (code c =? 125)
  end.

(** Fuel that is enough to scan the dump of a value. *)
Fixpoint weight (v : value) : nat :=
  match v with
  | Arr items => S (list_sum (map (λ x, S (weight x)) items))
  | Obj members => S (list_sum (map (λ '(_, x), S (weight x)) members))
  | _ => 1%nat
  end.

(** [scan_once] reads the dump of [v] back, at any level and before any text
    that can follow a number. *)
Definition reads_back (v : value) : Prop :=
  ∀ (lvl : nat) (rest : string) (fuel : nat),
    delim rest = true → (weight v ≤ fuel)%nat →
    scan_once fuel (encode lvl v +:+ rest) = Ok (v, rest).

End JsonAux.

(** What the proofs about [main] use. *)
Module MainAux.
Import Tracker Main.

Definition ending_of (s : session) : ending := snd (fst s).
Definition tracker_of (s : session) : tracker := snd s.

(** The session ran some calls on the tracker [t], and an exception it
    ended with is one a call raises on the tracker it had. *)
Definition runs_calls (t : tracker) (s : session) : Prop :=
  ∃ os, tracker_of s = run_all os t
        ∧ ∀ e, ending_of s = Raises e →
               ∃ o, fst (run o (tracker_of s)) = Raised e.

(** The text is empty or starts with a character that is not white
    space. *)
Definition trimmed_left (s : string) : Prop :=
  match s with
  | "" => True
  | String c _ => isspace c = false
  end.

End MainAux.

(** What the proofs about sequences of calls use. *)
Module Runs.
Import Tracker.

(** The usernames a sequence of calls asks [register_user] to register. *)
Definition registered_names (os : list op) : gset string :=
  list_to_set
    (omap (λ o, match o with RegisterUser u => Some u | _ => None end) os).

(** Loading the data file gives the dictionary in memory. *)
Definition file_mirrors_data (t : tracker) : Prop :=
  load_data (DATA_FILE t) = Some (data t).

(** The last cycle dates of the records parse. *)
Definition dates_parse (t : tracker) : Prop :=
  ∀ u r s, data t !! u = Some r → last_cycle_date r = Some s →
           is_Some (Datetime.strptime s).

(** The reminders of the records are dated as [str(date)] writes a date
    of the calendar. *)
Definition reminders_iso (t : tracker) : Prop :=
  ∀ u r e, data t !! u = Some r → e ∈ reminders r →
           ∃ d, Calendar.valid d = true
                ∧ Reminder.date e = Datetime.isoformat d.

End Runs.

(** [x] does not come after [y] in the order of [sorted(.., key=key)]:
    [not (key(y) < key(x))]. *)
Definition key_le {A : Type} (key : A → string) (x y : A) : Prop :=
  Builtins.str_lt (key y) (key x) = false.

(** * Properties *)

Import Tracker.

(** ** The library models on examples *)

Example strptime_ex1 :
  Datetime.strptime "2024-01-01" = Some (Datetime.mkdate 2024 1 1).
Proof. reflexivity. Qed.

Example strptime_ex2 : Datetime.strptime "2024-13-40" = None.
Proof. reflexivity. Qed.

Example strptime_ex3 : Datetime.strptime "2024-02-30" = None.
Proof. reflexivity. Qed.

Example add_ex1 :
  Datetime.isoformat <$> Datetime.add (Datetime.mkdate 2024 1 1) 28
  = Some "2024-01-29".
Proof. vm_compute. reflexivity. Qed.

Example json_ex1 :
  Json.loads (Json.dumps (Json.Obj [("a", Json.Arr [Json.Int (-12); Json.Null]);
                                    ("b\", Json.Obj [])]))
  = Json.Ok (Json.Obj [("a", Json.Arr [Json.Int (-12); Json.Null]);
                       ("b\", Json.Obj [])]).
Proof. vm_compute. reflexivity. Qed.

(** The scenario of the specification: register, set the cycle details,
    predict, add a reminder. *)
Example scenario_alice :
  let t1 := snd (register_user "alice" (mkTracker ∅ None)) in
  let t2 := snd (set_cycle_details "alice" "2024-01-01" 28 t1) in
  fst (predict_next_cycle "alice" t2)
  = Returned "Next cycle for alice is predicted on 2024-01-29."
  ∧ fst (add_reminder "alice" "Buy supplies" 5 t2)
    = Returned "Reminder 'Buy supplies' added for alice on 2024-01-24.".
Proof. split; vm_compute; reflexivity. Qed.

(** ** Messages *)

Section Messages.

Lemma append_head (c : ascii) (a b : string) : String c a +:+ b = String c (a +:+ b).
Proof. reflexivity. Qed.

Lemma append_empty (b : string) : "" +:+ b = b.
Proof. reflexivity. Qed.

Lemma USER_NOT_FOUND_not_NO_CYCLE_DETAILS : USER_NOT_FOUND ≠ NO_CYCLE_DETAILS.
Proof. discriminate. Qed.

End Messages.

(** ** Calls for a username that is not registered *)

(** C7: every operation other than [register_user], called with a username
    that is not a key of [self.data], returns the user-not-found message and
    leaves the tracker as it was: [self.data] and the data file. *)
Theorem unregistered_user_not_found (t : tracker) (username : string)
    (Habsent : data t !! username = None) :
  (∀ d n, set_cycle_details username d n t = (Returned USER_NOT_FOUND, t))
  ∧ (∀ now s, add_symptom now username s t = (Returned USER_NOT_FOUND, t))
  ∧ (∀ r n, add_reminder username r n t = (Returned USER_NOT_FOUND, t))
  ∧ view_reminders username t = (Returned USER_NOT_FOUND, t)
  ∧ predict_next_cycle username t = (Returned USER_NOT_FOUND, t)
  ∧ view_symptoms username t = (Returned USER_NOT_FOUND, t).
Proof.
  unfold set_cycle_details, add_symptom, add_reminder, view_reminders,
    predict_next_cycle, view_symptoms.
  rewrite Habsent. repeat split.
Qed.

Lemma unregistered_user_not_found_witness :
  let t := mkTracker ∅ None in
  data t !! "bob" = None
  ∧ add_symptom (Datetime.mkdate 2024 1 3) "bob" "cramps" t
    = (Returned USER_NOT_FOUND, t)
  ∧ predict_next_cycle "bob" t = (Returned USER_NOT_FOUND, t).
Proof.
  intros t.
  assert (Habsent : data t !! "bob" = None) by reflexivity.
  destruct (unregistered_user_not_found t "bob" Habsent)
    as (_ & Hsym & _ & _ & Hpred & _).
  split; [exact Habsent|]. split; [apply Hsym | exact Hpred].
Defined.

(** ** [register_user] *)

Lemma register_user_new (username : string) (t : tracker) :
  data t !! username = None →
  register_user username t
  = (Returned ("User '" +:+ username +:+ "' registered successfully!"),
     save_data (mkTracker (<[username := mkUserRecord None 28 [] []]> (data t))
                          (DATA_FILE t))).
Proof. intros H. unfold register_user. rewrite H. reflexivity. Qed.

Lemma save_data_persisted (t : tracker) : persisted (save_data t).
Proof. reflexivity. Qed.





(** ** The records of the other users *)

Lemma read_only_same (o : op) (t : tracker) :
  read_only o = true → snd (run o t) = t.
Proof.
  destruct o; try discriminate; intros _; cbn [run].
  - unfold view_reminders. destruct (data t !! username); [|done].
    by destruct (reminders u).
  - unfold predict_next_cycle. destruct (data t !! username); [|done].
    destruct (truthy _); [|done]. by destruct (next_cycle_date _ _).
  - unfold view_symptoms. destruct (data t !! username); [|done].
    by destruct (symptoms u).
Qed.

Lemma run_frame (o : op) (t : tracker) (u v : string) :
  u ≠ v →
  match o with
  | RegisterUser u' | SetCycleDetails u' _ _ | AddSymptom _ u' _
  | AddReminder u' _ _ | ViewReminders u' | PredictNextCycle u'
  | ViewSymptoms u' => u' = u
  end →
  data (snd (run o t)) !! v = data t !! v.
Proof.
  intros Hne Hu.
  destruct o; subst; try (by rewrite read_only_same); cbn [run].
  - unfold register_user. destruct (data t !! u); [done|].
    cbn. by rewrite lookup_insert_ne.
  - unfold set_cycle_details. destruct (data t !! u); [|done].
    destruct (Datetime.strptime _); [|done]. cbn. by rewrite lookup_insert_ne.
  - unfold add_symptom. destruct (data t !! u); [|done].
    cbn. by rewrite lookup_insert_ne.
  - unfold add_reminder. destruct (data t !! u); [|done].
    destruct (truthy _); [|done]. destruct (next_cycle_date _ _); [|done].
    destruct (Datetime.timedelta _); [|done].
    destruct (Datetime.sub _ _); [|done]. cbn. by rewrite lookup_insert_ne.
Qed.

(** The operations that change a record do not add or remove a key. *)
Lemma update_keeps_dom (o : op) (t : tracker) :
  match o with RegisterUser _ => False | _ => True end →
  dom (data (snd (run o t))) = dom (data t).
Proof.
  assert (Hins : ∀ (m : gmap string UserRecord) u r r',
    m !! u = Some r → dom (<[u := r']> m) = dom m).
  { intros m u r r' Hr. apply dom_insert_lookup_L. by eexists. }
  destruct o; [done|intros _..]; try (by rewrite read_only_same); cbn [run].
  - unfold set_cycle_details. destruct (data t !! username) eqn:E; [|done].
    destruct (Datetime.strptime _); [|done]. cbn. eauto.
  - unfold add_symptom. destruct (data t !! username) eqn:E; [|done].
    cbn. eauto.
  - unfold add_reminder. destruct (data t !! username) eqn:E; [|done].
    destruct (truthy _); [|done]. destruct (next_cycle_date _ _); [|done].
    destruct (Datetime.timedelta _); [|done].
    destruct (Datetime.sub _ _); [|done]. cbn. eauto.
Qed.

(** C10: an operation called for a username leaves the record of every
    other username as it was; [set_cycle_details], [add_symptom] and
    [add_reminder] also keep the set of usernames, and the three read-only
    operations leave the whole tracker as it was. *)
Theorem other_users_unchanged (t : tracker) (u v : string) (Hne : u ≠ v) :
  data (snd (register_user u t)) !! v = data t !! v
  ∧ (∀ d n,
       data (snd (set_cycle_details u d n t)) !! v = data t !! v
       ∧ dom (data (snd (set_cycle_details u d n t))) = dom (data t))
  ∧ (∀ now s,
       data (snd (add_symptom now u s t)) !! v = data t !! v
       ∧ dom (data (snd (add_symptom now u s t))) = dom (data t))
  ∧ (∀ r n,
       data (snd (add_reminder u r n t)) !! v = data t !! v
       ∧ dom (data (snd (add_reminder u r n t))) = dom (data t))
  ∧ snd (view_reminders u t) = t
  ∧ snd (predict_next_cycle u t) = t
  ∧ snd (view_symptoms u t) = t.
Proof.
  split; [exact (run_frame (RegisterUser u) t u v Hne eq_refl)|].
  split.
  { intros d n. split;
      [exact (run_frame (SetCycleDetails u d n) t u v Hne eq_refl)
      |exact (update_keeps_dom (SetCycleDetails u d n) t I)]. }
  split.
  { intros now s. split;
      [exact (run_frame (AddSymptom now u s) t u v Hne eq_refl)
      |exact (update_keeps_dom (AddSymptom now u s) t I)]. }
  split.
  { intros r n. split;
      [exact (run_frame (AddReminder u r n) t u v Hne eq_refl)
      |exact (update_keeps_dom (AddReminder u r n) t I)]. }
  split; [exact (read_only_same (ViewReminders u) t eq_refl)|].
  split; [exact (read_only_same (PredictNextCycle u) t eq_refl)|].
  exact (read_only_same (ViewSymptoms u) t eq_refl).
Qed.

Lemma other_users_unchanged_witness :
  let t1 := snd (register_user "alice" (mkTracker ∅ None)) in
  let t2 := snd (register_user "bob" t1) in
  "alice" ≠ "bob"
  ∧ data (snd (add_symptom (Datetime.mkdate 2024 1 3) "alice" "cramps" t2))
      !! "bob"
    = data t2 !! "bob"
  ∧ snd (view_symptoms "alice" t2) = t2.
Proof.
  intros t1 t2.
  assert (Hne : "alice" ≠ "bob") by discriminate.
  destruct (other_users_unchanged t2 "alice" "bob" Hne)
    as (_ & _ & Hsym & _ & _ & _ & Hview).
  split; [exact Hne|]. split; [apply Hsym | exact Hview].
Defined.

(** ** The calendar: ordinals and dates *)

Section CalendarFacts.
Import Datetime Calendar.

Lemma is_leap_shift (y q : Z) : is_leap (y + 400 * q) = is_leap y.
Proof.
  unfold is_leap.
  replace ((y + 400 * q) mod 4) with (y mod 4)
    by (Z.div_mod_to_equations; lia).
  replace ((y + 400 * q) mod 100) with (y mod 100)
    by (Z.div_mod_to_equations; lia).
  replace ((y + 400 * q) mod 400) with (y mod 400)
    by (Z.div_mod_to_equations; lia).
  reflexivity.
Qed.

Lemma days_before_year_shift (y q : Z) :
  days_before_year (y + 400 * q) = days_before_year y + DI400Y * q.
Proof.
  unfold days_before_year, DI400Y. cbv zeta.
  Z.div_mod_to_equations. lia.
Qed.

Lemma ymd2ord_shift (q : Z) (d : date) :
  ymd2ord (shift_year (400 * q) d) = ymd2ord d + DI400Y * q.
Proof.
  unfold ymd2ord, shift_year, days_before_month. cbn [year month day].
  rewrite is_leap_shift, days_before_year_shift. lia.
Qed.

Lemma ord2ymd_shift (n q : Z) :
  ord2ymd (n + DI400Y * q) = shift_year (400 * q) (ord2ymd n).
Proof.
  unfold ord2ymd. cbv zeta.
  replace ((n + DI400Y * q - 1) / DI400Y) with ((n - 1) / DI400Y + q)
    by (unfold DI400Y; Z.div_mod_to_equations; lia).
  replace ((n + DI400Y * q - 1) mod DI400Y) with ((n - 1) mod DI400Y)
    by (unfold DI400Y; Z.div_mod_to_equations; lia).
  repeat match goal with
         | |- context [if ?b then _ else _] => destruct b
         end; unfold shift_year; cbn [year month day]; f_equal; lia.
Qed.

Lemma all_from_spec (p : Z → bool) (n : nat) (z r : Z) :
  all_from p n z = true → z ≤ r < z + Z.of_nat n → p r = true.
Proof.
  revert z. induction n as [|n IH]; intros z Hall Hr; [lia|].
  cbn [all_from] in Hall. apply andb_true_iff in Hall as [Hz Hall].
  destruct (Z.eq_dec r z) as [->|Hne]; [exact Hz|].
  apply (IH (z + 1)); [exact Hall | lia].
Qed.

Lemma cycle_ok_all : all_from cycle_ok (Z.to_nat DI400Y) 0 = true.
Proof. vm_compute. reflexivity. Qed.

Lemma first_cycle (r : Z) :
  0 ≤ r < DI400Y →
  ymd2ord (ord2ymd (r + 1)) = r + 1
  ∧ valid_day (ord2ymd (r + 1)) = true
  ∧ 1 ≤ year (ord2ymd (r + 1)) ≤ (if r <=? 145730 then 399 else 400).
Proof.
  intros Hr.
  pose proof (all_from_spec cycle_ok (Z.to_nat DI400Y) 0 r cycle_ok_all) as Hok.
  cbv beta zeta in Hok.
  assert (Hin : 0 ≤ r < 0 + Z.of_nat (Z.to_nat DI400Y))
    by (rewrite Z2Nat.id by (unfold DI400Y; lia); lia).
  specialize (Hok Hin). rewrite !andb_true_iff in Hok.
  destruct Hok as [[[Hord Hday] Hlo] Hhi].
  apply Z.eqb_eq in Hord. apply Z.leb_le in Hlo, Hhi. auto.
Qed.

(** [n] as a day of the first 400 years and a number of 400-year cycles. *)
Lemma ordinal_split (n : Z) :
  ∃ r q, n = r + 1 + DI400Y * q ∧ 0 ≤ r < DI400Y
         ∧ (0 < n ≤ MAXORDINAL → 0 ≤ q ≤ 24 ∧ (q = 24 → r ≤ 145730)).
Proof.
  exists ((n - 1) mod DI400Y), ((n - 1) / DI400Y).
  unfold DI400Y, MAXORDINAL. Z.div_mod_to_equations. lia.
Qed.

(** [date.fromordinal(n).toordinal() == n] *)
Lemma ymd2ord_ord2ymd (n : Z) : ymd2ord (ord2ymd n) = n.
Proof.
  destruct (ordinal_split n) as (r & q & -> & Hr & _).
  rewrite ord2ymd_shift, ymd2ord_shift.
  destruct (first_cycle r Hr) as [-> _]. reflexivity.
Qed.

Lemma valid_shift (q : Z) (d : date) :
  valid_day d = true → 1 ≤ year d → year d + 400 * q ≤ MAXYEAR → 0 ≤ q →
  valid (shift_year (400 * q) d) = true.
Proof.
  destruct d as [y m d]. unfold valid, valid_day, shift_year, days_in_month.
  cbn [year month day]. rewrite is_leap_shift. intros Hday Hy Hmax Hq.
  rewrite Hday, andb_true_r. unfold MINYEAR, MAXYEAR in *.
  apply andb_true_iff. split; [apply Z.leb_le | apply Z.leb_le]; lia.
Qed.

(** [date.fromordinal(n)] is a date [datetime.date] can hold when [n] is
    between the ordinals of [date.min] and [date.max]. *)
Lemma valid_ord2ymd (n : Z) :
  0 < n ≤ MAXORDINAL → valid (ord2ymd n) = true.
Proof.
  intros Hrange. destruct (ordinal_split n) as (r & q & -> & Hr & Hq).
  rewrite ord2ymd_shift.
  destruct (first_cycle r Hr) as (_ & Hday & Hy).
  destruct (Hq Hrange) as [Hq1 Hq2].
  apply valid_shift; [exact Hday|lia| |lia].
  unfold MAXYEAR. destruct (Z.leb_spec r 145730); lia.
Qed.

End CalendarFacts.

(** ** Dates the tracker reads and computes *)

Section DateFacts.
Import Datetime Calendar.

Lemma make_date_valid (y m d : Z) (dt : date) :
  make_date y m d = Some dt → dt = mkdate y m d ∧ valid dt = true.
Proof.
  unfold make_date, valid, valid_day.
  destruct (_ && _) eqn:E; [|discriminate]. intros [= <-].
  cbn [year month day]. rewrite <- E, !andb_assoc. done.
Qed.

Lemma strptime_valid (s : string) (d : date) :
  strptime s = Some d → valid d = true.
Proof.
  unfold strptime. destruct (match_format s) as [[[[y m] dd] r]|]; [|done].
  destruct r; [|done]. intros H. by apply make_date_valid in H as [_ ?].
Qed.

Lemma strptime_nonempty (s : string) (d : date) :
  strptime s = Some d → s ≠ "".
Proof. intros H ->. discriminate. Qed.

Lemma truthy_parsed (s : string) (d : date) :
  strptime s = Some d → truthy (Some s) = Some s.
Proof. intros H. apply strptime_nonempty in H. by destruct s. Qed.

Lemma valid_fields (d : date) :
  valid d = true →
  1 ≤ year d ≤ 9999 ∧ 1 ≤ month d ≤ 12
  ∧ 1 ≤ day d ≤ days_in_month (year d) (month d).
Proof.
  unfold valid, valid_day, MINYEAR, MAXYEAR. rewrite !andb_true_iff. lia.
Qed.

Lemma days_before_year_bounds (y : Z) :
  1 ≤ y ≤ 9999 →
  0 ≤ days_before_year y ∧ days_before_year y + 365 ≤ MAXORDINAL
  ∧ (y ≤ 9998 → days_before_year y + 366 ≤ MAXORDINAL).
Proof.
  unfold days_before_year, MAXORDINAL. cbv zeta. intros Hy.
  Z.div_mod_to_equations. lia.
Qed.

Lemma is_leap_9999 (y : Z) : is_leap y = true → y ≠ 9999.
Proof. intros H ->. discriminate. Qed.

(** The ordinal of a date [datetime.date] can hold is between those of
    [date.min] and [date.max]. *)
Lemma ymd2ord_range (d : date) :
  valid d = true → 0 < ymd2ord d ≤ MAXORDINAL.
Proof.
  intros Hv. apply valid_fields in Hv as (Hy & Hm & Hd).
  destruct d as [y m dd]. cbn [year month day] in *.
  pose proof (days_before_year_bounds y Hy) as (H0 & H365 & H366).
  pose proof (is_leap_9999 y) as Hleap.
  unfold ymd2ord, days_before_month, days_in_month in *.
  cbn [year month day].
  assert (Hcases : m = 1 ∨ m = 2 ∨ m = 3 ∨ m = 4 ∨ m = 5 ∨ m = 6 ∨ m = 7
                   ∨ m = 8 ∨ m = 9 ∨ m = 10 ∨ m = 11 ∨ m = 12) by lia.
  destruct (is_leap y);
    repeat (destruct Hcases as [->|Hcases]); try subst m;
    cbn in Hd |- *; lia.
Qed.

(** [strptime(s, "%Y-%m-%d") + timedelta(days=n)] when the sum is a date
    [datetime] can hold: the date whose ordinal is [n] more. *)
Lemma next_cycle_date_in_range (s : string) (d : date) (n : Z) :
  strptime s = Some d →
  0 < ymd2ord d + n ≤ MAXORDINAL →
  next_cycle_date s n = Returned (ord2ymd (ymd2ord d + n)).
Proof.
  intros Hs Hn. pose proof (ymd2ord_range d (strptime_valid s d Hs)) as Hd.
  unfold next_cycle_date, add, timedelta, MAXORDINAL in *. rewrite Hs.
  destruct (Z.leb_spec (Z.abs n) 999999999); [|lia].
  destruct (Z.leb_spec (Z.abs (ymd2ord d + n)) 999999999); [|lia].
  destruct (Z.ltb_spec 0 (ymd2ord d + n)); [|lia].
  destruct (Z.leb_spec (ymd2ord d + n) 3652059); [|lia]. reflexivity.
Qed.

(** [next - timedelta(days=n)] when the difference is a date [datetime] can
    hold. *)
Lemma sub_in_range (next : date) (n : Z) :
  valid next = true →
  0 < ymd2ord next - n ≤ MAXORDINAL →
  timedelta n = Some n ∧ sub next n = Some (ord2ymd (ymd2ord next - n)).
Proof.
  intros Hv Hn. pose proof (ymd2ord_range next Hv) as Hd.
  unfold sub, add, timedelta, MAXORDINAL in *.
  replace (ymd2ord next + - n) with (ymd2ord next - n) by lia.
  destruct (Z.leb_spec (Z.abs n) 999999999); [|lia].
  destruct (Z.leb_spec (Z.abs (ymd2ord next - n)) 999999999); [|lia].
  destruct (Z.ltb_spec 0 (ymd2ord next - n)); [|lia].
  destruct (Z.leb_spec (ymd2ord next - n) 3652059); [|lia]. done.
Qed.

End DateFacts.

(** ** [sorted]: a stable sort *)

Section StringOrder.

Lemma ascii_compare_lt_trans (a b c : ascii) :
  Ascii.compare a b = Lt → Ascii.compare b c = Lt → Ascii.compare a c = Lt.
Proof.
  unfold Ascii.compare. rewrite !N.compare_lt_iff. lia.
Qed.

Lemma string_compare_refl (a : string) : String.compare a a = Eq.
Proof.
  induction a as [|c a IH]; [done|]. cbn.
  unfold Ascii.compare. by rewrite N.compare_refl.
Qed.

Lemma string_compare_lt_trans (a b c : string) :
  String.compare a b = Lt → String.compare b c = Lt →
  String.compare a c = Lt.
Proof.
  revert b c. induction a as [|x a IH]; intros [|y b] [|z c]; cbn; try done.
  destruct (Ascii.compare x y) eqn:Exy; [|
    |done].
  - apply Ascii.compare_eq_iff in Exy as ->.
    destruct (Ascii.compare y z); [apply IH|done|done].
  - intros _. destruct (Ascii.compare y z) eqn:Eyz; [| |done].
    + apply Ascii.compare_eq_iff in Eyz as <-. by rewrite Exy.
    + by rewrite (ascii_compare_lt_trans x y z).
Qed.

Lemma str_lt_irrefl (a : string) : Builtins.str_lt a a = false.
Proof. unfold Builtins.str_lt, String.ltb. by rewrite string_compare_refl. Qed.

Lemma str_lt_asym (a b : string) :
  Builtins.str_lt a b = true → Builtins.str_lt b a = false.
Proof.
  unfold Builtins.str_lt, String.ltb. rewrite (String.compare_antisym b a).
  by destruct (String.compare a b).
Qed.

(** [a <= b] and [b <= c] give [a <= c], with [x <= y] read as
    [not (y < x)]. *)
Lemma str_le_trans (a b c : string) :
  Builtins.str_lt b a = false → Builtins.str_lt c b = false →
  Builtins.str_lt c a = false.
Proof.
  unfold Builtins.str_lt, String.ltb. intros Hab Hbc.
  destruct (String.compare c a) eqn:Eca; [done| |done].
  destruct (String.compare b a) eqn:Eba; [|done|].
  - apply String.compare_eq_iff in Eba as ->. by rewrite Eca in Hbc.
  - rewrite String.compare_antisym in Eba.
    destruct (String.compare a b) eqn:Eab; try done.
    by rewrite (string_compare_lt_trans c a b) in Hbc.
Qed.

End StringOrder.

Section SortFacts.
Context {A : Type} (key : A → string).

Lemma insort_perm (x : A) (l : list A) :
  Permutation (Builtins.insort key x l) (x :: l).
Proof.
  induction l as [|y l IH]; cbn; [done|].
  destruct (Builtins.str_lt _ _); [|done].
  rewrite IH. apply perm_swap.
Qed.

Lemma sorted_perm (l : list A) : Permutation (Builtins.sorted key l) l.
Proof.
  induction l as [|x l IH]; cbn; [done|].
  rewrite insort_perm. by constructor.
Qed.

Lemma insort_sorted (x : A) (l : list A) :
  StronglySorted (key_le key) l → StronglySorted (key_le key) (Builtins.insort key x l).
Proof.
  induction 1 as [|y l Hl IH Hy]; cbn.
  - repeat constructor.
  - destruct (Builtins.str_lt (key y) (key x)) eqn:E.
    + constructor; [exact IH|].
      rewrite insort_perm. constructor; [|exact Hy].
      by apply str_lt_asym.
    + constructor; [by constructor|]. constructor; [exact E|].
      eapply Forall_impl; [exact Hy|]. intros z Hz.
      unfold key_le in *. by apply (str_le_trans _ (key y)).
Qed.

Lemma sorted_sorted (l : list A) : StronglySorted (key_le key) (Builtins.sorted key l).
Proof.
  induction l as [|x l IH]; cbn; [constructor|]. by apply insort_sorted.
Qed.

Lemma insort_filter (k : string) (x : A) (l : list A) :
  filter (λ e, key e = k) (Builtins.insort key x l)
  = filter (λ e, key e = k) (x :: l).
Proof.
  induction l as [|y l IH]; cbn; [done|].
  destruct (Builtins.str_lt (key y) (key x)) eqn:E; [|done].
  rewrite (filter_cons _ y), IH, !filter_cons.
  destruct (decide (key y = k)) as [Hy|Hy]; [|done].
  destruct (decide (key x = k)) as [Hx|Hx]; [|done].
  rewrite Hy, Hx, str_lt_irrefl in E. done.
Qed.

(** The elements with one key keep the order they had in [l]. *)
Lemma sorted_stable (k : string) (l : list A) :
  filter (λ e, key e = k) (Builtins.sorted key l) = filter (λ e, key e = k) l.
Proof.
  induction l as [|x l IH]; cbn [Builtins.sorted]; [done|].
  by rewrite insort_filter, !filter_cons, IH.
Qed.

End SortFacts.

(** ** [set_cycle_details] and [predict_next_cycle] *)

Section CycleDetails.
Import Datetime Calendar.

Lemma run_all_read_only (qs : list op) (t : tracker) :
  forallb read_only qs = true → run_all qs t = t.
Proof.
  unfold run_all. revert t. induction qs as [|q qs IH]; intros t; [done|].
  cbn. intros [Hq Hqs]%andb_true_iff. rewrite read_only_same by done. auto.
Qed.

Lemma set_cycle_details_ok (t : tracker) (username s : string) (n : Z)
    (r : UserRecord) (d : date) :
  data t !! username = Some r →
  strptime s = Some d →
  set_cycle_details username s n t
  = (Returned ("Cycle details updated for '" +:+ username +:+ "'."),
     save_data
       (mkTracker
          (<[username := mkUserRecord (Some s) n (symptoms r) (reminders r)]>
             (data t))
          (DATA_FILE t))).
Proof. intros Hr Hs. unfold set_cycle_details. by rewrite Hr, Hs. Qed.

Lemma predict_next_cycle_ok (t : tracker) (username s : string)
    (r : UserRecord) (d : date) :
  data t !! username = Some r →
  last_cycle_date r = Some s →
  strptime s = Some d →
  0 < ymd2ord d + cycle_length r ≤ MAXORDINAL →
  predict_next_cycle username t
  = (Returned ("Next cycle for " +:+ username +:+ " is predicted on "
               +:+ isoformat (ord2ymd (ymd2ord d + cycle_length r)) +:+ "."),
     t).
Proof.
  intros Hr Hlast Hs Hn. unfold predict_next_cycle.
  rewrite Hr, Hlast, (truthy_parsed s d Hs).
  by rewrite (next_cycle_date_in_range s d _ Hs Hn).
Qed.

(** C1, as amended: after [set_cycle_details(username, date, length)] for a
    registered username and a date that parses, whatever read-only
    operations come in between, [predict_next_cycle] returns the date
    exactly [length] days after [date], provided that that date is one
    [datetime] can hold (between 0001-01-01 and 9999-12-31). *)
Theorem predict_after_set_cycle_details (t : tracker)
    (username last_date : string) (cycle_length' : Z) (r : UserRecord) (d : date)
    (qs : list op)
    (Hreg : data t !! username = Some r)
    (Hdate : strptime last_date = Some d)
    (Hrange : 0 < ymd2ord d + cycle_length' ≤ MAXORDINAL)
    (Hqs : forallb read_only qs = true) :
  ∃ next : date,
    let t' := run_all qs (snd (set_cycle_details username last_date cycle_length' t)) in
    predict_next_cycle username t'
    = (Returned ("Next cycle for " +:+ username +:+ " is predicted on "
                 +:+ isoformat next +:+ "."),
       t')
    ∧ ymd2ord next = ymd2ord d + cycle_length'
    ∧ valid next = true.
Proof.
  exists (ord2ymd (ymd2ord d + cycle_length')). cbv zeta.
  rewrite (run_all_read_only qs _ Hqs).
  rewrite (set_cycle_details_ok t username last_date cycle_length' r d Hreg Hdate).
  cbn [snd]. split; [|split].
  - apply (predict_next_cycle_ok _ username last_date
             (mkUserRecord (Some last_date) cycle_length' (symptoms r) (reminders r)) d);
      [apply lookup_insert_eq|done..].
  - apply ymd2ord_ord2ymd.
  - by apply valid_ord2ymd.
Qed.

Lemma predict_after_set_cycle_details_witness :
  let t1 := snd (register_user "alice" (mkTracker ∅ None)) in
  let qs := [ViewSymptoms "alice"; PredictNextCycle "alice";
             ViewReminders "bob"] in
  ∃ next : date,
    predict_next_cycle "alice"
      (run_all qs (snd (set_cycle_details "alice" "2024-01-01" 28 t1)))
    = (Returned ("Next cycle for alice is predicted on "
                 +:+ isoformat next +:+ "."),
       run_all qs (snd (set_cycle_details "alice" "2024-01-01" 28 t1)))
    ∧ ymd2ord next = ymd2ord (mkdate 2024 1 1) + 28
    ∧ valid next = true.
Proof.
  intros t1 qs.
  apply (predict_after_set_cycle_details t1 "alice" "2024-01-01" 28
           (mkUserRecord None 28 [] []) (mkdate 2024 1 1) qs).
  - reflexivity.
  - reflexivity.
  - vm_compute. split; [reflexivity | discriminate].
  - reflexivity.
Defined.

(** C1 as stated fails: ["9999-12-31"] parses and 28 is a cycle length
    [set_cycle_details] accepts, but the date 28 days later is after
    [date.max]: [predict_next_cycle] raises [OverflowError] and returns no
    date. *)
Lemma predict_after_set_cycle_details_counterexample :
  let t1 := snd (register_user "alice" (mkTracker ∅ None)) in
  let t2 := snd (set_cycle_details "alice" "9999-12-31" 28 t1) in
  strptime "9999-12-31" = Some (mkdate 9999 12 31)
  ∧ fst (set_cycle_details "alice" "9999-12-31" 28 t1)
    = Returned "Cycle details updated for 'alice'."
  ∧ fst (predict_next_cycle "alice" t2) = Raised OverflowError
  ∧ ∀ text, fst (predict_next_cycle "alice" t2) ≠ Returned text.
Proof.
  intros t1 t2.
  assert (H : fst (predict_next_cycle "alice" t2) = Raised OverflowError)
    by (vm_compute; reflexivity).
  split; [reflexivity|]. split; [vm_compute; reflexivity|].
  split; [exact H|]. intros text. rewrite H. discriminate.
Qed.

(** C3: [set_cycle_details] for a registered username with a date that
    [strptime] does not parse, be it malformed (["2024-13-40"]) or not a day
    of the calendar (["2024-02-30"]), returns the invalid-date message and
    leaves the tracker as it was: the record, so its last cycle date and
    cycle length, and the data file. *)
Theorem set_cycle_details_invalid_date (t : tracker)
    (username last_date : string) (cycle_length' : Z) (r : UserRecord)
    (Hreg : data t !! username = Some r)
    (Hbad : strptime last_date = None) :
  set_cycle_details username last_date cycle_length' t = (Returned INVALID_DATE, t)
  ∧ data (snd (set_cycle_details username last_date cycle_length' t)) !! username
    = Some r
  ∧ DATA_FILE (snd (set_cycle_details username last_date cycle_length' t))
    = DATA_FILE t
  ∧ strptime "2024-13-40" = None
  ∧ strptime "2024-02-30" = None.
Proof.
  unfold set_cycle_details. rewrite Hreg, Hbad. cbn [snd]. done.
Qed.

Lemma set_cycle_details_invalid_date_witness :
  let t1 := snd (register_user "alice" (mkTracker ∅ None)) in
  let t2 := snd (set_cycle_details "alice" "2024-01-01" 30 t1) in
  data t2 !! "alice" = Some (mkUserRecord (Some "2024-01-01") 30 [] [])
  ∧ strptime "2024-13-40" = None
  ∧ set_cycle_details "alice" "2024-13-40" 28 t2 = (Returned INVALID_DATE, t2).
Proof.
  intros t1 t2.
  assert (Hreg : data t2 !! "alice"
                 = Some (mkUserRecord (Some "2024-01-01") 30 [] []))
    by (vm_compute; reflexivity).
  assert (Hbad : strptime "2024-13-40" = None) by reflexivity.
  split; [exact Hreg|]. split; [exact Hbad|].
  exact (proj1 (set_cycle_details_invalid_date t2 "alice" "2024-13-40" 28 _
                  Hreg Hbad)).
Defined.

End CycleDetails.

(** ** [add_reminder] *)

Section Reminders.
Import Datetime Calendar.

Lemma view_reminders_lines (t : tracker) (username : string) (r : UserRecord) :
  data t !! username = Some r → reminders r ≠ [] →
  view_reminders username t
  = (Returned
       (Builtins.join (String Json.newline "")
          (map reminder_line (Builtins.sorted Reminder.date (reminders r)))),
     t).
Proof.
  intros Hr Hne. unfold view_reminders. rewrite Hr.
  by destruct (reminders r).
Qed.

Lemma reminder_line_mk (reminder on : string) :
  reminder_line (Reminder.mk reminder on) = "- " +:+ reminder +:+ " on " +:+ on.
Proof. reflexivity. Qed.

Lemma add_reminder_ok (t : tracker) (username reminder s : string)
    (days_before : Z) (r : UserRecord) (d : date) :
  data t !! username = Some r →
  last_cycle_date r = Some s →
  strptime s = Some d →
  0 < ymd2ord d + cycle_length r ≤ MAXORDINAL →
  0 < ymd2ord d + cycle_length r - days_before ≤ MAXORDINAL →
  let on := isoformat (ord2ymd (ymd2ord d + cycle_length r - days_before)) in
  add_reminder username reminder days_before t
  = (Returned ("Reminder '" +:+ reminder +:+ "' added for " +:+ username
               +:+ " on " +:+ on +:+ "."),
     save_data
       (mkTracker
          (<[username :=
               mkUserRecord (last_cycle_date r) (cycle_length r) (symptoms r)
                 (reminders r ++ [Reminder.mk reminder on])]> (data t))
          (DATA_FILE t))).
Proof.
  intros Hr Hlast Hs Hnext Hrem on. unfold add_reminder.
  rewrite Hr, Hlast, (truthy_parsed s d Hs).
  rewrite (next_cycle_date_in_range s d _ Hs Hnext).
  destruct (sub_in_range (ord2ymd (ymd2ord d + cycle_length r)) days_before)
    as [Hdelta Hsub].
  { by apply valid_ord2ymd. }
  { by rewrite ymd2ord_ord2ymd. }
  rewrite Hdelta, Hsub, ymd2ord_ord2ymd. reflexivity.
Qed.

(** C4, as amended: for a registered username whose last cycle date is set
    (and parses), [add_reminder] appends a reminder dated exactly
    [last_cycle_date + cycle_length - days_before] days, for every integer
    [days_before], negative or above the cycle length included, for which the
    next cycle date and the reminder date are dates [datetime] can hold
    (between 0001-01-01 and 9999-12-31); the data file is written and a
    following [view_reminders] lists the reminder with that date. *)
Theorem add_reminder_date (t : tracker) (username reminder s : string)
    (days_before : Z) (r : UserRecord) (d : date)
    (Hreg : data t !! username = Some r)
    (Hset : last_cycle_date r = Some s)
    (Hparse : strptime s = Some d)
    (Hnext : 0 < ymd2ord d + cycle_length r ≤ MAXORDINAL)
    (Hrem : 0 < ymd2ord d + cycle_length r - days_before ≤ MAXORDINAL) :
  ∃ (on : date) (t' : tracker) (lines : list string),
    ymd2ord on = ymd2ord d + cycle_length r - days_before
    ∧ valid on = true
    ∧ add_reminder username reminder days_before t
      = (Returned ("Reminder '" +:+ reminder +:+ "' added for " +:+ username
                   +:+ " on " +:+ isoformat on +:+ "."),
         t')
    ∧ data t' !! username
      = Some (mkUserRecord (last_cycle_date r) (cycle_length r) (symptoms r)
                (reminders r ++ [Reminder.mk reminder (isoformat on)]))
    ∧ persisted t'
    ∧ view_reminders username t'
      = (Returned (Builtins.join (String Json.newline "") lines), t')
    ∧ "- " +:+ reminder +:+ " on " +:+ isoformat on ∈ lines.
Proof.
  pose proof (add_reminder_ok t username reminder s days_before r d
                Hreg Hset Hparse Hnext Hrem) as Hadd. cbv zeta in Hadd.
  pose proof (ymd2ord_ord2ymd (ymd2ord d + cycle_length r - days_before))
    as Hord.
  pose proof (valid_ord2ymd _ Hrem) as Hvalid.
  revert Hadd Hord Hvalid.
  generalize (ord2ymd (ymd2ord d + cycle_length r - days_before)).
  intros on Hadd Hord Hvalid.
  eexists on, _, _. split; [exact Hord|]. split; [exact Hvalid|].
  split; [exact Hadd|]. cbn [save_data data].
  split; [apply lookup_insert_eq|]. split; [apply save_data_persisted|].
  split.
  - eapply view_reminders_lines; [apply lookup_insert_eq|].
    cbn [reminders]. by destruct (reminders r).
  - rewrite <- (reminder_line_mk reminder (isoformat on)).
    apply list_elem_of_fmap_2. rewrite sorted_perm.
    apply elem_of_app. right. apply list_elem_of_singleton. reflexivity.
Qed.

Lemma add_reminder_date_witness :
  let t1 := snd (register_user "alice" (mkTracker ∅ None)) in
  let t2 := snd (set_cycle_details "alice" "2024-01-01" 28 t1) in
  ∃ (on : date) (t' : tracker),
    ymd2ord on = ymd2ord (mkdate 2024 1 1) + 28 - (-3)
    ∧ add_reminder "alice" "Late" (-3) t2
      = (Returned ("Reminder 'Late' added for alice on " +:+ isoformat on
                   +:+ "."), t').
Proof.
  intros t1 t2.
  destruct (add_reminder_date t2 "alice" "Late" "2024-01-01" (-3)
              (mkUserRecord (Some "2024-01-01") 28 [] []) (mkdate 2024 1 1))
    as (on & t' & lines & Hord & _ & Hadd & _).
  - vm_compute. reflexivity.
  - reflexivity.
  - reflexivity.
  - vm_compute. split; [reflexivity | discriminate].
  - vm_compute. split; [reflexivity | discriminate].
  - exists on, t'. split; [exact Hord | exact Hadd].
Defined.

(** C4 as stated fails: with the last cycle on 2024-01-01 and the cycle
    length 28, [add_reminder] with [days_before] 4000000 asks for a date
    before [date.min]; it raises [OverflowError], appends nothing, and
    [view_reminders] lists no reminder. *)
Lemma add_reminder_date_counterexample :
  let t1 := snd (register_user "alice" (mkTracker ∅ None)) in
  let t2 := snd (set_cycle_details "alice" "2024-01-01" 28 t1) in
  data t2 !! "alice" = Some (mkUserRecord (Some "2024-01-01") 28 [] [])
  ∧ add_reminder "alice" "Buy supplies" 4000000 t2 = (Raised OverflowError, t2)
  ∧ view_reminders "alice" (snd (add_reminder "alice" "Buy supplies" 4000000 t2))
    = (Returned "No reminders set.", t2).
Proof.
  intros t1 t2.
  assert (Hreg : data t2 !! "alice"
                 = Some (mkUserRecord (Some "2024-01-01") 28 [] []))
    by (vm_compute; reflexivity).
  assert (Hadd : add_reminder "alice" "Buy supplies" 4000000 t2
                 = (Raised OverflowError, t2)).
  { unfold add_reminder. rewrite Hreg. reflexivity. }
  split; [exact Hreg|]. split; [exact Hadd|].
  rewrite Hadd. cbn [snd]. unfold view_reminders. by rewrite Hreg.
Qed.



End Reminders.

(** ** The order of ISO dates is the order of the calendar *)

Section IsoOrder.
Import Datetime Calendar.

Lemma zfill4_all :
  all_from (λ n, String.eqb (zfill 4 n) (digits4 n)) (Z.to_nat 10000) 0
  = true.
Proof. vm_compute. reflexivity. Qed.

Lemma zfill2_all :
  all_from (λ n, String.eqb (zfill 2 n) (digits2 n)) (Z.to_nat 100) 0 = true.
Proof. vm_compute. reflexivity. Qed.

Lemma zfill4_digits (n : Z) : 0 ≤ n ≤ 9999 → zfill 4 n = digits4 n.
Proof.
  intros Hn. apply String.eqb_eq.
  apply (all_from_spec (λ n, String.eqb (zfill 4 n) (digits4 n))
           (Z.to_nat 10000) 0 n zfill4_all).
  rewrite Z2Nat.id; lia.
Qed.

Lemma zfill2_digits (n : Z) : 0 ≤ n ≤ 99 → zfill 2 n = digits2 n.
Proof.
  intros Hn. apply String.eqb_eq.
  apply (all_from_spec (λ n, String.eqb (zfill 2 n) (digits2 n))
           (Z.to_nat 100) 0 n zfill2_all).
  rewrite Z2Nat.id; lia.
Qed.

Lemma days_in_month_le_31 (y m : Z) : days_in_month y m ≤ 31.
Proof.
  unfold days_in_month, DAYS_IN_MONTH.
  destruct (_ && _); [lia|]. repeat case_match; lia.
Qed.

Lemma isoformat_digits (d : date) :
  valid d = true →
  isoformat d
  = digits4 (year d) +:+ "-" +:+ digits2 (month d) +:+ "-"
    +:+ digits2 (day d).
Proof.
  intros (Hy & Hm & Hd)%valid_fields.
  pose proof (days_in_month_le_31 (year d) (month d)).
  unfold isoformat.
  rewrite zfill4_digits, !zfill2_digits by lia. reflexivity.
Qed.

Lemma dchar_compare (a b : Z) :
  0 ≤ a ≤ 9 → 0 ≤ b ≤ 9 → Ascii.compare (dchar a) (dchar b) = (a ?= b).
Proof.
  intros Ha Hb. unfold Ascii.compare, dchar.
  rewrite !N_ascii_embedding by lia.
  rewrite (Z2N.inj_compare (48 + a) (48 + b)) by lia.
  apply Z.add_compare_mono_l.
Qed.

(** Lexicographic comparison, one position at a time. *)
Lemma compare_cons_digit (a b : Z) (s1 s2 : string) :
  0 ≤ a ≤ 9 → 0 ≤ b ≤ 9 →
  String.compare (String (dchar a) s1) (String (dchar b) s2)
  = match a ?= b with Eq => String.compare s1 s2 | c => c end.
Proof. intros Ha Hb. cbn. by rewrite dchar_compare. Qed.

Lemma compare_cons_dash (s1 s2 : string) :
  String.compare (String "-" s1) (String "-" s2) = String.compare s1 s2.
Proof. reflexivity. Qed.

Lemma compare_iso (d1 d2 : date) :
  valid d1 = true → valid d2 = true →
  String.compare (isoformat d1) (isoformat d2) = (date_key d1 ?= date_key d2).
Proof.
  intros Hv1 Hv2. rewrite !isoformat_digits by done.
  apply valid_fields in Hv1 as (Hy1 & Hm1 & Hd1).
  apply valid_fields in Hv2 as (Hy2 & Hm2 & Hd2).
  pose proof (days_in_month_le_31 (year d1) (month d1)).
  pose proof (days_in_month_le_31 (year d2) (month d2)).
  destruct d1 as [y1 m1 dd1], d2 as [y2 m2 dd2].
  unfold date_key, digits4, digits2. cbn [year month day] in *.
  repeat (rewrite append_head || rewrite append_empty).
  rewrite !compare_cons_digit, !compare_cons_dash, !compare_cons_digit
    by (Z.div_mod_to_equations; lia).
  rewrite !compare_cons_dash, !compare_cons_digit
    by (Z.div_mod_to_equations; lia).
  cbn [String.compare]. symmetry.
  repeat match goal with
         | |- context [?a ?= ?b] =>
             lazymatch a with
             | context [_ * 10000] => fail
             | _ => destruct (Z.compare_spec a b)
             end
         end;
    first [apply Z.compare_eq_iff | apply Z.compare_lt_iff
          | apply Z.compare_gt_iff];
    Z.div_mod_to_equations; lia.
Qed.

Lemma days_before_year_succ (y : Z) :
  days_before_year (y + 1)
  = days_before_year y + 365 + (if is_leap y then 1 else 0).
Proof.
  unfold days_before_year, is_leap. cbv zeta.
  destruct (Z.eqb_spec (y mod 4) 0), (Z.eqb_spec (y mod 100) 0),
    (Z.eqb_spec (y mod 400) 0); cbn; Z.div_mod_to_equations; lia.
Qed.

Lemma days_before_year_mono (y1 y2 : Z) :
  y1 ≤ y2 → days_before_year y1 ≤ days_before_year y2.
Proof.
  unfold days_before_year. cbv zeta. intros H.
  Z.div_mod_to_equations. lia.
Qed.

(** The day of the year of a day of the calendar, and where its month ends. *)
Lemma day_of_year_bounds (y m d : Z) :
  1 ≤ m ≤ 12 → 1 ≤ d ≤ days_in_month y m →
  0 < days_before_month y m + d
  ∧ days_before_month y m + d ≤ 365 + (if is_leap y then 1 else 0)
  ∧ (∀ m', m < m' ≤ 12 → days_before_month y m + d ≤ days_before_month y m').
Proof.
  intros Hm Hd. unfold days_before_month, days_in_month in *.
  assert (Hcases : m = 1 ∨ m = 2 ∨ m = 3 ∨ m = 4 ∨ m = 5 ∨ m = 6 ∨ m = 7
                   ∨ m = 8 ∨ m = 9 ∨ m = 10 ∨ m = 11 ∨ m = 12) by lia.
  split; [|split].
  - destruct (is_leap y);
      repeat (destruct Hcases as [->|Hcases]); try subst m; cbn in *; lia.
  - destruct (is_leap y);
      repeat (destruct Hcases as [->|Hcases]); try subst m; cbn in *; lia.
  - intros m' Hm'.
    assert (Hcases' : m' = 2 ∨ m' = 3 ∨ m' = 4 ∨ m' = 5 ∨ m' = 6 ∨ m' = 7
                      ∨ m' = 8 ∨ m' = 9 ∨ m' = 10 ∨ m' = 11 ∨ m' = 12) by lia.
    destruct (is_leap y);
      repeat (destruct Hcases as [->|Hcases]); try subst m;
      repeat (destruct Hcases' as [->|Hcases']); try subst m';
      cbn in *; lia.
Qed.

Lemma ymd2ord_lt (d1 d2 : date) :
  valid d1 = true → valid d2 = true →
  date_key d1 < date_key d2 → ymd2ord d1 < ymd2ord d2.
Proof.
  intros (Hy1 & Hm1 & Hd1)%valid_fields (Hy2 & Hm2 & Hd2)%valid_fields.
  pose proof (days_in_month_le_31 (year d1) (month d1)).
  pose proof (days_in_month_le_31 (year d2) (month d2)).
  destruct d1 as [y1 m1 dd1], d2 as [y2 m2 dd2].
  unfold date_key, ymd2ord. cbn [year month day] in *. intros Hlt.
  destruct (day_of_year_bounds y1 m1 dd1 Hm1 Hd1) as (_ & Hend1 & Hnext1).
  destruct (day_of_year_bounds y2 m2 dd2 Hm2 Hd2) as (Hpos2 & _ & _).
  destruct (Z.lt_trichotomy y1 y2) as [Hy|[->|Hy]]; [| |lia].
  - pose proof (days_before_year_succ y1).
    pose proof (days_before_year_mono (y1 + 1) y2). lia.
  - destruct (Z.lt_trichotomy m1 m2) as [Hm|[->|Hm]]; [| |lia].
    + specialize (Hnext1 m2). lia.
    + lia.
Qed.

(** On dates as [str(date)] writes them, [<] of strings is [<] of dates. *)
Lemma str_lt_iso (d1 d2 : date) :
  valid d1 = true → valid d2 = true →
  Builtins.str_lt (isoformat d1) (isoformat d2) = true →
  ymd2ord d1 < ymd2ord d2.
Proof.
  intros Hv1 Hv2. unfold Builtins.str_lt, String.ltb.
  rewrite compare_iso by done.
  destruct (Z.compare_spec (date_key d1) (date_key d2)); try done.
  intros _. by apply ymd2ord_lt.
Qed.

Lemma date_key_inj (d1 d2 : date) :
  valid d1 = true → valid d2 = true → date_key d1 = date_key d2 → d1 = d2.
Proof.
  intros (Hy1 & Hm1 & Hd1)%valid_fields (Hy2 & Hm2 & Hd2)%valid_fields.
  pose proof (days_in_month_le_31 (year d1) (month d1)).
  pose proof (days_in_month_le_31 (year d2) (month d2)).
  destruct d1 as [y1 m1 dd1], d2 as [y2 m2 dd2].
  unfold date_key. cbn [year month day] in *. intros Hk.
  f_equal; lia.
Qed.

(** Two reminders in the order of [sorted(.., key=date)] whose dates are
    ISO dates are in the order of the calendar. *)
Lemma key_le_iso (e1 e2 : Reminder.t) (d1 d2 : date) :
  valid d1 = true → valid d2 = true →
  Reminder.date e1 = isoformat d1 → Reminder.date e2 = isoformat d2 →
  key_le Reminder.date e1 e2 → ymd2ord d1 ≤ ymd2ord d2.
Proof.
  intros Hv1 Hv2 H1 H2. unfold key_le, Builtins.str_lt, String.ltb.
  rewrite H1, H2, compare_iso by done.
  destruct (Z.compare_spec (date_key d2) (date_key d1)) as [Heq|Hlt|Hgt];
    try done; intros _.
  - apply date_key_inj in Heq; [|done..]. subst. lia.
  - apply Z.lt_le_incl. by apply ymd2ord_lt.
Qed.

End IsoOrder.

(** ** [view_reminders] and [view_symptoms] *)

Section Views.
Import Datetime Calendar.

Lemma StronglySorted_lookup {A : Type} (R : A → A → Prop) (l : list A)
    (i j : nat) (x y : A) :
  StronglySorted R l → (i < j)%nat → l !! i = Some x → l !! j = Some y →
  R x y.
Proof.
  intros Hl. revert i j. induction Hl as [|z l Hl IH Hz]; intros i j Hij Hi Hj.
  - by rewrite lookup_nil in Hi.
  - destruct j as [|j]; [lia|]. cbn in Hj. destruct i as [|i]; cbn in Hi.
    + injection Hi as ->. rewrite Forall_forall in Hz. apply Hz.
      by eapply list_elem_of_lookup_2.
    + apply (IH i j); [lia|done..].
Qed.

Lemma join_lines_head {A : Type} (line : A → string) (sep : string) (c : ascii)
    (l : list A) :
  (∀ e, ∃ s, line e = String c s) → l ≠ [] →
  ∃ s, Builtins.join sep (map line l) = String c s.
Proof.
  intros Hline Hl. destruct l as [|e l]; [done|]. cbn.
  destruct (Hline e) as [s ->]. destruct (map line l); eauto.
Qed.

Lemma view_symptoms_lines (t : tracker) (username : string) (r : UserRecord) :
  data t !! username = Some r → symptoms r ≠ [] →
  view_symptoms username t
  = (Returned
       (Builtins.join (String Json.newline "") (map symptom_line (symptoms r))),
     t).
Proof.
  intros Hr Hne. unfold view_symptoms. rewrite Hr. by destruct (symptoms r).
Qed.



End Views.

(** ** [json]: what [loads] reads back from [dumps] *)

Section JsonStrings.
Import Json JsonAux.

Lemma append_assoc (a b c : string) : (a +:+ b) +:+ c = a +:+ (b +:+ c).
Proof.
  induction a as [|x a IH]; [done|]. rewrite !append_head. by rewrite IH.
Qed.

Lemma append_nil_r (a : string) : a +:+ "" = a.
Proof.
  induction a as [|x a IH]; [done|]. rewrite append_head. by rewrite IH.
Qed.

Lemma length_append (a b : string) :
  String.length (a +:+ b) = (String.length a + String.length b)%nat.
Proof.
  induction a as [|x a IH]; [done|]. rewrite append_head.
  cbn [String.length]. by rewrite IH.
Qed.

(** [scanstring] reads the escape of one character back. *)
Lemma scanstring_escape_char (c : ascii) (tail : string) :
  scanstring (escape_char c +:+ tail) = prepend c (scanstring tail).
Proof.
  destruct c as [[|] [|] [|] [|] [|] [|] [|] [|]]; reflexivity.
Qed.

Lemma scanstring_escape (s rest : string) :
  scanstring (escape s +:+ String dquote rest) = Ok (s, rest).
Proof.
  induction s as [|c s IH]; [reflexivity|].
  cbn [escape]. rewrite append_assoc, scanstring_escape_char, IH.
  reflexivity.
Qed.

Lemma encode_string_append (s rest : string) :
  encode_string s +:+ rest = String dquote (escape s +:+ String dquote rest).
Proof. unfold encode_string. rewrite append_head, append_assoc. reflexivity. Qed.

End JsonStrings.

Section JsonNumbers.
Import Json JsonAux.

(** The characters of a decimal number are digits. *)
Lemma span_digits_uint (u : Decimal.uint) (rest : string) :
  delim rest = true →
  span_digits (NilEmpty.string_of_uint u +:+ rest)
  = (NilEmpty.string_of_uint u, rest).
Proof.
  intros Hrest. induction u as [|u IH|u IH|u IH|u IH|u IH|u IH|u IH|u IH|u IH|u IH];
    cbn [NilEmpty.string_of_uint];
    try (rewrite append_head; cbn [span_digits]; rewrite IH; reflexivity).
  rewrite append_empty. destruct rest as [|c rest]; [done|].
  cbn in Hrest |- *. by destruct (is_digit c).
Qed.

(** [Pos.to_uint] writes no leading zero. *)
Lemma to_uint_head (p : positive) :
  match Pos.to_uint p with
  | Decimal.Nil | Decimal.D0 _ => False
  | _ => True
  end.
Proof.
  pose proof (DecimalPos.Unsigned.to_uint_nonzero p) as Hnz.
  pose proof (DecimalPos.Unsigned.to_uint_nonnil p) as Hnn.
  pose proof (DecimalPos.Unsigned.to_of (Pos.to_uint p)) as Hnorm.
  rewrite DecimalPos.Unsigned.of_to in Hnorm. cbn in Hnorm.
  destruct (Pos.to_uint p) as [|u|u|u|u|u|u|u|u|u|u]; try done.
  rewrite DecimalFacts.unorm_D0 in Hnorm.
  destruct u as [|u|u|u|u|u|u|u|u|u|u]; try done.
  rewrite DecimalFacts.unorm_D0 in Hnorm.
  pose proof (DecimalFacts.nb_digits_unorm u) as Hlen.
  destruct u as [|u|u|u|u|u|u|u|u|u|u]; try done;
    rewrite <- Hnorm in Hlen; cbn in Hlen;
    specialize (Hlen ltac:(done)); lia.
Qed.

Lemma match_integer_digits (c : ascii) (r : string) :
  is_digit c = true → (code c =? 48) = false →
  match_integer (String c r)
  = let '(ds, r') := span_digits r in Some (String c ds, r').
Proof.
  intros Hc H0. unfold match_integer.
  assert ((code c =? 45) = false) as ->.
  { unfold is_digit in Hc. apply andb_true_iff in Hc as [Hc _]. lia. }
  by rewrite H0, Hc.
Qed.

Lemma match_integer_minus (c : ascii) (r : string) :
  is_digit c = true → (code c =? 48) = false →
  match_integer (String "-" (String c r))
  = let '(ds, r') := span_digits r in Some (String "-" (String c ds), r').
Proof.
  intros Hc H0. unfold match_integer.
  change (code "-" =? 45) with true. cbv iota beta. by rewrite H0, Hc.
Qed.

Lemma match_integer_str_of_Z (n : Z) (rest : string) :
  delim rest = true →
  match_integer (Builtins.str_of_Z n +:+ rest)
  = Some (Builtins.str_of_Z n, rest).
Proof.
  intros Hrest. unfold Builtins.str_of_Z.
  destruct n as [|p|p]; [reflexivity| |]; cbn [Z.to_int NilZero.string_of_int];
    pose proof (to_uint_head p) as Hhead;
    destruct (Pos.to_uint p) as [|u|u|u|u|u|u|u|u|u|u]; try done;
    cbn [NilZero.string_of_uint NilEmpty.string_of_uint];
    rewrite ?append_head;
    first [rewrite match_integer_digits by done
          |rewrite match_integer_minus by done];
    rewrite span_digits_uint by done; reflexivity.
Qed.

Lemma int_of_text_str_of_Z (n : Z) : int_of_text (Builtins.str_of_Z n) = n.
Proof.
  unfold int_of_text, Builtins.str_of_Z.
  rewrite NilZero.isi.
  - apply DecimalZ.of_to.
  - destruct n as [|p|p]; cbn; try done.
    intros [= H]. by apply (DecimalPos.Unsigned.to_uint_nonnil p).
  - destruct n as [|p|p]; cbn; try done.
    intros [= H]. by apply (DecimalPos.Unsigned.to_uint_nonnil p).
Qed.

Lemma delim_no_frac_exp (rest : string) :
  delim rest = true → match_frac rest = None ∧ match_exp rest = None.
Proof.
  destruct rest as [|c rest]; [done|]. cbn.
  rewrite !andb_true_iff, !negb_true_iff. intros [[[_ H46] H101] H69].
  rewrite H46, H101, H69. cbn. by destruct rest.
Qed.

Lemma scan_number_str_of_Z (n : Z) (rest : string) :
  delim rest = true →
  scan_number (Builtins.str_of_Z n +:+ rest) = Ok (Int n, rest).
Proof.
  intros Hrest. unfold scan_number.
  rewrite match_integer_str_of_Z by done.
  destruct (delim_no_frac_exp rest Hrest) as [-> Hexp]. cbn.
  by rewrite Hexp, int_of_text_str_of_Z.
Qed.

(** The first character of a number is a digit or a minus sign followed by
    a digit. *)
Lemma str_of_Z_head (n : Z) :
  ∃ c s, Builtins.str_of_Z n = String c s
         ∧ (is_digit c = true
            ∨ code c = 45 ∧ ∃ c' s', s = String c' s' ∧ is_digit c' = true).
Proof.
  unfold Builtins.str_of_Z.
  destruct n as [|p|p]; [by eexists _, _; split; [reflexivity|left]| |];
    cbn [Z.to_int NilZero.string_of_int];
    pose proof (to_uint_head p) as Hhead;
    destruct (Pos.to_uint p) as [|u|u|u|u|u|u|u|u|u|u]; try done;
    cbn [NilZero.string_of_uint NilEmpty.string_of_uint];
    eexists _, _; (split; [reflexivity|]);
    first [by left | right; split; [done|]; eexists _, _; by split].
Qed.

End JsonNumbers.

Section JsonValues.
Import Json JsonAux.

Lemma value_ind_nested (P : value → Prop) :
  P Null → (∀ b, P (Bool b)) → (∀ n, P (Int n)) → (∀ s, P (Str s)) →
  (∀ l, Forall P l → P (Arr l)) →
  (∀ l, Forall (λ kv, P kv.2) l → P (Obj l)) →
  ∀ v, P v.
Proof.
  intros HNull HBool HInt HStr HArr HObj.
  fix IH 1.
  intros [|b|n|s|l|l];
    [exact HNull | apply HBool | apply HInt | apply HStr | |].
  - apply HArr. revert l. fix IHl 1. intros [|x l]; constructor.
    + apply IH.
    + apply IHl.
  - apply HObj. revert l. fix IHl 1. intros [|[k x] l]; constructor.
    + apply IH.
    + apply IHl.
Qed.

(** *** White space and the first character of a dump *)

Lemma skip_ws_spaces (n : nat) (s : string) : skip_ws (spaces n +:+ s) = skip_ws s.
Proof. induction n as [|n IH]; [done|]. cbn [spaces]. by rewrite append_head. Qed.

Lemma skip_ws_newline_indent (lvl : nat) (s : string) :
  skip_ws (newline_indent lvl +:+ s) = skip_ws s.
Proof.
  unfold newline_indent. rewrite append_head.
  change (skip_ws (String newline ?x)) with (skip_ws x).
  apply skip_ws_spaces.
Qed.

Lemma skip_ws_starts_value (s : string) :
  starts_value s = true → skip_ws s = s.
Proof.
  destruct s as [|c s]; [done|]. cbn.
  rewrite !andb_true_iff, !negb_true_iff. by intros [[-> _] _].
Qed.

Lemma is_digit_cases (c : ascii) :
  is_digit c = true →
  c ∈ ["0"; "1"; "2"; "3"; "4"; "5"; "6"; "7"; "8"; "9"]%char.
Proof.
  destruct c as [[|] [|] [|] [|] [|] [|] [|] [|]]; try discriminate;
    intros _; set_solver.
Qed.

Lemma code_minus (c : ascii) : code c = 45 → c = "-"%char.
Proof.
  destruct c as [[|] [|] [|] [|] [|] [|] [|] [|]]; try discriminate; done.
Qed.

Lemma starts_value_encode (lvl : nat) (v : value) (t : string) :
  starts_value (encode lvl v +:+ t) = true.
Proof.
  destruct v as [|[|]|n|s|[|x l]|[|kx l]]; try reflexivity.
  cbn [encode]. destruct (str_of_Z_head n) as (c & s & -> & [Hc|[Hc _]]).
  - apply is_digit_cases in Hc. set_unfold.
    destruct Hc as [->|[->|[->|[->|[->|[->|[->|[->|[->|[->|[]]]]]]]]]]];
      reflexivity.
  - apply code_minus in Hc as ->. reflexivity.
Qed.

Lemma delim_newline_indent (lvl : nat) (t : string) :
  delim (newline_indent lvl +:+ t) = true.
Proof. reflexivity. Qed.

(** *** One step of [scan_once] on each kind of dump *)

Lemma scan_once_number (fuel : nat) (n : Z) (rest : string) :
  scan_once (S fuel) (Builtins.str_of_Z n +:+ rest)
  = scan_number (Builtins.str_of_Z n +:+ rest).
Proof.
  destruct (str_of_Z_head n) as (c & s & -> & [Hc|[Hc (c' & s' & -> & Hc')]]).
  - apply is_digit_cases in Hc. set_unfold.
    destruct Hc as [->|[->|[->|[->|[->|[->|[->|[->|[->|[->|[]]]]]]]]]]];
      reflexivity.
  - apply code_minus in Hc as ->. apply is_digit_cases in Hc'. set_unfold.
    destruct Hc' as [->|[->|[->|[->|[->|[->|[->|[->|[->|[->|[]]]]]]]]]]];
      reflexivity.
Qed.

Lemma scan_once_string (fuel : nat) (s rest : string) :
  scan_once (S fuel) (encode_string s +:+ rest) = Ok (Str s, rest).
Proof.
  rewrite encode_string_append.
  change (scan_once (S fuel) (String dquote ?r))
    with (bind (scanstring r) (λ '(t, r'), Ok (Str t, r'))).
  by rewrite scanstring_escape.
Qed.

Lemma scan_once_open_bracket (fuel : nat) (r s : string) :
  skip_ws r = s → starts_value s = true →
  scan_once (S fuel) (String "[" r)
  = bind (scan_items fuel s) (λ '(l, r'), Ok (Arr l, r')).
Proof.
  intros Hr Hs.
  change (scan_once (S fuel) (String "[" r))
    with (match skip_ws r with
          | String c' r' =>
              if code c' =? 93 then Ok (Arr [], r')
              else bind (scan_items fuel (String c' r'))
                     (λ '(l, r''), Ok (Arr l, r''))
          | "" => DecodeError
          end).
  rewrite Hr. destruct s as [|c s]; [done|]. cbn in Hs.
  rewrite !andb_true_iff, !negb_true_iff in Hs. by destruct Hs as [[_ ->] _].
Qed.

Lemma scan_once_open_brace (fuel : nat) (r s : string) :
  skip_ws r = String dquote s →
  scan_once (S fuel) (String "{" r)
  = bind (scan_members fuel s) (λ '(l, r'), Ok (Obj l, r')).
Proof.
  intros Hr.
  change (scan_once (S fuel) (String "{" r))
    with (match skip_ws r with
          | String c' r' =>
              if code c' =? 125 then Ok (Obj [], r')
              else if code c' =? 34 then
                bind (scan_members fuel r') (λ '(l, r''), Ok (Obj l, r''))
              else DecodeError
          | "" => DecodeError
          end).
  by rewrite Hr.
Qed.

End JsonValues.

Section JsonRoundTrip.
Import Json JsonAux.

Lemma join_cons_cons (sep a b : string) (l : list string) :
  Builtins.join sep (a :: b :: l) = a +:+ sep +:+ Builtins.join sep (b :: l).
Proof. reflexivity. Qed.

Lemma item_separator_append (lvl : nat) (t : string) :
  item_separator lvl +:+ t = String "," (newline_indent lvl +:+ t).
Proof. unfold item_separator. by rewrite append_assoc. Qed.

Lemma colon_space_append (t : string) : ": " +:+ t = String ":" (String " " t).
Proof. reflexivity. Qed.

Lemma scan_items_encode (lvl : nat) (l : list value) :
  Forall reads_back l → l ≠ [] →
  ∀ (rest : string) (fuel : nat),
    (list_sum (map (λ x, S (weight x)) l) ≤ fuel)%nat →
    scan_items fuel
      (Builtins.join (item_separator (S lvl)) (map (encode (S lvl)) l)
       +:+ newline_indent lvl +:+ String "]" rest)
    = Ok (l, rest).
Proof.
  induction 1 as [|x l Hx Hl IH]; [done|]. intros _ rest fuel Hfuel.
  rewrite map_cons in Hfuel.
  change (list_sum (?a :: ?l)) with (a + list_sum l)%nat in Hfuel.
  destruct fuel as [|fuel]; [lia|].
  cbn [scan_items]. destruct l as [|y l].
  - cbn [map Builtins.join].
    rewrite (Hx (S lvl)) by (apply delim_newline_indent || lia).
    cbn [bind]. rewrite skip_ws_newline_indent. reflexivity.
  - rewrite (map_cons _ x), (map_cons _ y), join_cons_cons.
    rewrite <- (map_cons (encode (S lvl)) y), !append_assoc.
    rewrite item_separator_append.
    rewrite (Hx (S lvl)) by (reflexivity || lia).
    cbn [bind]. change (skip_ws (String "," ?r)) with (String "," r).
    cbv iota beta. change (code "," =? 93) with false.
    change (code "," =? 44) with true. cbv iota.
    rewrite skip_ws_newline_indent, skip_ws_starts_value.
    + rewrite IH by (done || lia). reflexivity.
    + rewrite map_cons.
      destruct (map (encode (S lvl)) l);
        [cbn [Builtins.join] | rewrite join_cons_cons, !append_assoc];
        apply starts_value_encode.
Qed.

(** The dump of the members of an object, without the opening quote of the
    first key. *)
Lemma join_members (lvl : nat) (k : string) (x : value)
    (l : list (string * value)) (t : string) :
  Builtins.join (item_separator (S lvl))
    (map (λ '(k, x), encode_string k +:+ ": " +:+ encode (S lvl) x)
       ((k, x) :: l)) +:+ t
  = String dquote
      (escape k +:+ String dquote
         (String ":" (String " "
            (encode (S lvl) x
             +:+ match l with
                 | [] => t
                 | _ =>
                     String ","
                       (newline_indent (S lvl)
                        +:+ Builtins.join (item_separator (S lvl))
                              (map (λ '(k, x),
                                      encode_string k +:+ ": "
                                      +:+ encode (S lvl) x) l)
                        +:+ t)
                 end)))).
Proof.
  rewrite map_cons. destruct l as [|[k' x'] l].
  - cbn [map Builtins.join].
    by rewrite !append_assoc, encode_string_append, colon_space_append.
  - rewrite (map_cons _ (k', x')), join_cons_cons.
    rewrite <- (map_cons (λ '(k, x),
                            encode_string k +:+ ": " +:+ encode (S lvl) x)
                  (k', x')).
    rewrite !append_assoc, encode_string_append, colon_space_append.
    by rewrite item_separator_append.
Qed.

Lemma scan_members_encode (lvl : nat) (l : list (string * value)) :
  Forall (λ kv, reads_back kv.2) l → l ≠ [] →
  ∀ (rest : string) (fuel : nat),
    (list_sum (map (λ '(_, x), S (weight x)) l) ≤ fuel)%nat →
    ∃ s,
      Builtins.join (item_separator (S lvl))
        (map (λ '(k, x), encode_string k +:+ ": " +:+ encode (S lvl) x) l)
      +:+ newline_indent lvl +:+ String "}" rest
      = String dquote s
      ∧ scan_members fuel s = Ok (l, rest).
Proof.
  induction 1 as [|[k x] l Hx Hl IH]; [done|]. intros _ rest fuel Hfuel.
  rewrite map_cons in Hfuel.
  change (list_sum (?a :: ?l)) with (a + list_sum l)%nat in Hfuel.
  destruct fuel as [|fuel]; [lia|]. cbn [snd] in Hx.
  rewrite join_members. eexists. split; [reflexivity|].
  cbn [scan_members]. rewrite scanstring_escape. cbn [bind].
  change (skip_ws (String ":" ?r)) with (String ":" r). cbv iota beta.
  change (code ":" =? 58) with true. cbv iota.
  change (skip_ws (String " " ?r)) with (skip_ws r).
  rewrite skip_ws_starts_value by apply starts_value_encode.
  destruct l as [|kx l].
  - rewrite (Hx (S lvl)) by (apply delim_newline_indent || lia).
    cbn [bind]. rewrite skip_ws_newline_indent. reflexivity.
  - rewrite (Hx (S lvl)) by (reflexivity || lia).
    cbn [bind]. change (skip_ws (String "," ?r)) with (String "," r).
    cbv iota beta. change (code "," =? 125) with false.
    change (code "," =? 44) with true. cbv iota.
    rewrite skip_ws_newline_indent.
    destruct (IH ltac:(done) rest fuel ltac:(lia)) as (s & -> & Hs).
    change (skip_ws (String dquote ?r)) with (String dquote r).
    cbv iota beta. change (code dquote =? 34) with true. cbv iota.
    rewrite Hs. reflexivity.
Qed.

Lemma open_append (c : ascii) (t : string) : String c "" +:+ t = String c t.
Proof. reflexivity. Qed.

(** [scan_once] reads the dump of every value back. *)
Lemma scan_once_encode (v : value) : reads_back v.
Proof.
  induction v as [|b|n|s|l Hl|l Hl] using value_ind_nested;
    intros lvl rest fuel Hrest Hfuel;
    (destruct fuel as [|fuel]; [cbn in Hfuel; lia|]).
  - reflexivity.
  - destruct b; reflexivity.
  - cbn [encode]. by rewrite scan_once_number, scan_number_str_of_Z.
  - cbn [encode]. apply scan_once_string.
  - destruct l as [|x l]; [reflexivity|].
    cbn [weight] in Hfuel. cbn [encode].
    rewrite !append_assoc, !open_append.
    rewrite (scan_once_open_bracket fuel _
               (Builtins.join (item_separator (S lvl))
                  (map (encode (S lvl)) (x :: l))
                +:+ newline_indent lvl +:+ String "]" rest)).
    + rewrite scan_items_encode by (done || lia). reflexivity.
    + rewrite skip_ws_newline_indent. apply skip_ws_starts_value.
      rewrite map_cons. destruct (map (encode (S lvl)) l);
        [cbn [Builtins.join] | rewrite join_cons_cons, !append_assoc];
        apply starts_value_encode.
    + rewrite map_cons. destruct (map (encode (S lvl)) l);
        [cbn [Builtins.join] | rewrite join_cons_cons, !append_assoc];
        apply starts_value_encode.
  - destruct l as [|kx l]; [reflexivity|].
    cbn [weight] in Hfuel. cbn [encode].
    rewrite !append_assoc, !open_append.
    destruct (scan_members_encode lvl (kx :: l) Hl ltac:(done) rest fuel
                ltac:(lia)) as (s & Hs & Hscan).
    rewrite Hs.
    rewrite (scan_once_open_brace fuel _ s)
      by (by rewrite skip_ws_newline_indent).
    rewrite Hscan. reflexivity.
Qed.

(** The dump of a value has at least as many characters as its weight. *)
Lemma weight_le_length (v : value) :
  ∀ lvl, (weight v ≤ String.length (encode lvl v))%nat.
Proof.
  assert (Hjoin : ∀ (sep : string) (ws : list nat) (ts : list string),
    (1 ≤ String.length sep)%nat →
    Forall2 (λ w t, (w ≤ String.length t)%nat) ws ts →
    (list_sum (map S ws) ≤ String.length (Builtins.join sep ts) + 1)%nat).
  { intros sep ws ts Hsep H. induction H as [|w t ws ts Hw H IH]; [cbn; lia|].
    rewrite map_cons.
    change (list_sum (?a :: ?l)) with (a + list_sum l)%nat.
    destruct H as [|w' t' ws ts Hw' H].
    - cbn. lia.
    - rewrite join_cons_cons, !length_append. lia. }
  assert (Hnl : ∀ lvl, (1 ≤ String.length (newline_indent lvl))%nat)
    by (intros lvl; unfold newline_indent; cbn [String.length]; lia).
  assert (Hsep : ∀ lvl, (1 ≤ String.length (item_separator lvl))%nat)
    by (intros lvl; unfold item_separator; rewrite length_append;
        cbn [String.length]; lia).
  induction v as [|b|n|s|l Hl|l Hl] using value_ind_nested; intros lvl.
  - cbn. lia.
  - destruct b; cbn; lia.
  - cbn [weight encode]. destruct (str_of_Z_head n) as (c & s & -> & _).
    cbn. lia.
  - cbn. lia.
  - destruct l as [|x l]; [cbn; lia|].
    cbn [weight encode]. rewrite !length_append.
    pose proof (Hnl lvl) as Hnl0. pose proof (Hnl (S lvl)) as Hnl1.
    pose proof (Hjoin (item_separator (S lvl))
                  (map weight (x :: l)) (map (encode (S lvl)) (x :: l))
                  (Hsep _)) as H.
    rewrite map_map in H. cbn [String.length].
    enough (list_sum (map (λ x, S (weight x)) (x :: l))
            ≤ String.length
                (Builtins.join (item_separator (S lvl))
                   (map (encode (S lvl)) (x :: l))) + 1)%nat by lia.
    apply H. apply Forall2_fmap, Forall_Forall2_diag.
    eapply Forall_impl; [exact Hl|]. intros y Hy. apply Hy.
  - destruct l as [|kx l]; [cbn; lia|].
    cbn [weight encode]. rewrite !length_append.
    pose proof (Hnl lvl) as Hnl0. pose proof (Hnl (S lvl)) as Hnl1.
    pose proof (Hjoin (item_separator (S lvl))
                  (map (λ '(_, x), weight x) (kx :: l))
                  (map (λ '(k, x),
                          encode_string k +:+ ": " +:+ encode (S lvl) x)
                     (kx :: l))
                  (Hsep _)) as H.
    rewrite map_map in H. cbn [String.length].
    enough (list_sum (map (λ '(_, x), S (weight x)) (kx :: l))
            ≤ String.length
                (Builtins.join (item_separator (S lvl))
                   (map (λ '(k, x),
                           encode_string k +:+ ": " +:+ encode (S lvl) x)
                      (kx :: l))) + 1)%nat by lia.
    erewrite map_ext; [apply H|by intros [? ?]].
    apply Forall2_fmap, Forall_Forall2_diag.
    eapply Forall_impl; [exact Hl|]. intros [k y] Hy. cbn [snd] in Hy.
    rewrite !length_append. specialize (Hy (S lvl)). lia.
Qed.

(** [json.loads(json.dumps(v, indent=4)) == v] *)
Lemma loads_dumps (v : value) : loads (dumps v) = Ok v.
Proof.
  unfold loads, dumps.
  pose proof (starts_value_encode 0 v "") as Hstart.
  rewrite append_nil_r in Hstart. rewrite (skip_ws_starts_value _ Hstart).
  pose proof (scan_once_encode v 0%nat "" (S (String.length (encode 0 v))))
    as Hscan.
  rewrite append_nil_r in Hscan. rewrite Hscan; [reflexivity|reflexivity|].
  pose proof (weight_le_length v 0). lia.
Qed.

End JsonRoundTrip.

(** ** [save_data] and [load_data] *)

Section Persistence.
Import Json.

Lemma symptom_of_json_of_symptom (e : Symptom.t) :
  symptom_of_json (json_of_symptom e) = Some e.
Proof. by destruct e. Qed.

Lemma reminder_of_json_of_reminder (e : Reminder.t) :
  reminder_of_json (json_of_reminder e) = Some e.
Proof. by destruct e. Qed.

Lemma mapM_of_json {A : Type} (enc : A → value) (dec : value → option A)
    (l : list A) :
  (∀ e, dec (enc e) = Some e) → mapM dec (map enc l) = Some l.
Proof.
  intros Hof. induction l as [|e l IH]; [done|].
  cbn. rewrite Hof. cbn. by rewrite IH.
Qed.

Lemma record_of_json_of_record (r : UserRecord) :
  record_of_json (json_of_record r) = Some r.
Proof.
  destruct r as [d n ss rs]. unfold json_of_record, record_of_json.
  cbn [last_cycle_date cycle_length symptoms reminders].
  rewrite (mapM_of_json _ _ ss symptom_of_json_of_symptom).
  rewrite (mapM_of_json _ _ rs reminder_of_json_of_reminder).
  by destruct d.
Qed.

Lemma foldl_insert_to_map (l : list (string * UserRecord)) :
  NoDup (l.*1) →
  foldl (λ (m : gmap string UserRecord) '(u, r), <[u := r]> m) ∅ l
  = list_to_map l.
Proof.
  induction l as [|[u r] l IH] using rev_ind; [done|]. intros Hnodup.
  rewrite fmap_app in Hnodup. apply NoDup_app in Hnodup as (Hl & Hu & _).
  rewrite foldl_app. cbn [foldl]. rewrite IH by done.
  rewrite list_to_map_snoc; [done|]. intros Hin. apply (Hu u Hin).
  cbn. apply list_elem_of_singleton. reflexivity.
Qed.

Lemma data_of_json_of_data (d : gmap string UserRecord) :
  data_of_json (json_of_data d) = Some d.
Proof.
  unfold data_of_json, json_of_data.
  assert (Hfold : ∀ (l : list (string * UserRecord)) acc,
    foldl (λ acc '(u, x),
             d ← acc; r ← record_of_json x; Some (<[u := r]> d))
          (Some acc) (map (λ '(u, r), (u, json_of_record r)) l)
    = Some (foldl (λ (m : gmap string UserRecord) '(u, r), <[u := r]> m)
              acc l)).
  { induction l as [|[u r] l IH]; intros acc; [done|].
    cbn [map foldl]. cbn [mbind option_bind].
    rewrite record_of_json_of_record. cbn [mbind option_bind]. apply IH. }
  rewrite Hfold, foldl_insert_to_map by apply NoDup_fst_map_to_list.
  by rewrite list_to_map_to_list.
Qed.

Lemma load_data_dumps (d : gmap string UserRecord) :
  load_data (Some (dumps (json_of_data d))) = Some d.
Proof. unfold load_data. by rewrite loads_dumps, data_of_json_of_data. Qed.


(** An operation leaves the tracker as it was or ends with [save_data]. *)
Lemma run_saves (o : op) (t : tracker) :
  snd (run o t) = t ∨ ∃ t', snd (run o t) = save_data t'.
Proof.
  destruct o; cbn [run].
  - unfold register_user. destruct (data t !! username); eauto.
  - unfold set_cycle_details. destruct (data t !! username); [|eauto].
    destruct (Datetime.strptime _); eauto.
  - unfold add_symptom. destruct (data t !! username); eauto.
  - unfold add_reminder. destruct (data t !! username); [|eauto].
    destruct (truthy _); [|eauto]. destruct (next_cycle_date _ _); [|eauto].
    destruct (Datetime.timedelta _); [|eauto].
    destruct (Datetime.sub _ _); eauto.
  - left. by apply (read_only_same (ViewReminders username)).
  - left. by apply (read_only_same (PredictNextCycle username)).
  - left. by apply (read_only_same (ViewSymptoms username)).
Qed.

(** At every point of a run that starts without a data file, loading the
    file gives the dictionary in memory. *)
Lemma reachable_file_mirrors_data (t : tracker) :
  reachable t → load_data (DATA_FILE t) = Some (data t).
Proof.
  intros [os ->]. unfold run_all.
  assert (H0 : load_data (DATA_FILE (mkTracker ∅ None))
               = Some (data (mkTracker ∅ None))) by reflexivity.
  revert H0. generalize (mkTracker ∅ None).
  induction os as [|o os IH]; intros t Ht; [exact Ht|].
  cbn [foldl]. apply IH.
  destruct (run_saves o t) as [->|[t' ->]]; [exact Ht|].
  apply load_data_dumps.
Qed.

(** The last cycle date of a record the operations build parses. *)
Lemma reachable_last_cycle_date_parses (t : tracker) (username s : string)
    (r : UserRecord) :
  reachable t → data t !! username = Some r → last_cycle_date r = Some s →
  is_Some (Datetime.strptime s).
Proof.
  intros [os ->]. unfold run_all.
  assert (H0 : ∀ u r s, data (mkTracker ∅ None) !! u = Some r →
                        last_cycle_date r = Some s →
                        is_Some (Datetime.strptime s)) by done.
  revert H0 username r s. generalize (mkTracker ∅ None).
  induction os as [|o os IH]; intros t Ht; [exact Ht|].
  cbn [foldl]. apply IH. clear IH os. intros u r s.
  destruct o; try (rewrite read_only_same by done; apply Ht); cbn [run].
  - unfold register_user. destruct (data t !! username) eqn:E; [apply Ht|].
    cbn [snd save_data data]. rewrite lookup_insert.
    case_decide; [by intros [= <-]|apply Ht].
  - unfold set_cycle_details. destruct (data t !! username) eqn:E; [|apply Ht].
    destruct (Datetime.strptime _) eqn:Es; [|apply Ht].
    cbn [snd save_data data]. rewrite lookup_insert.
    case_decide; [|apply Ht]. intros [= <-]. cbn. intros [= <-]. eauto.
  - unfold add_symptom. destruct (data t !! username) eqn:E; [|apply Ht].
    cbn [snd save_data data]. rewrite lookup_insert.
    case_decide; [|apply Ht]. intros [= <-]. cbn. by apply (Ht username).
  - unfold add_reminder. destruct (data t !! username) eqn:E; [|apply Ht].
    destruct (truthy _); [|apply Ht].
    destruct (next_cycle_date _ _); [|apply Ht].
    destruct (Datetime.timedelta _); [|apply Ht].
    destruct (Datetime.sub _ _); [|apply Ht].
    cbn [snd save_data data]. rewrite lookup_insert.
    case_decide; [|apply Ht]. intros [= <-]. cbn. by apply (Ht username).
Qed.

End Persistence.

(** ** Sequences of calls *)

Section RunFacts.
#[local] Set Warnings "-clear-no-such-hyp".
Import Datetime Calendar Runs.

Lemma run_all_cons (o : op) (os : list op) (t : tracker) :
  run_all (o :: os) t = run_all os (snd (run o t)).
Proof. reflexivity. Qed.

(** A property every call keeps holds after a sequence of calls. *)
Lemma run_all_invariant (P : tracker → Prop) :
  (∀ o t, P t → P (snd (run o t))) →
  ∀ os t, P t → P (run_all os t).
Proof.
  intros Hstep os. induction os as [|o os IH]; intros t Ht; [exact Ht|].
  rewrite run_all_cons. apply IH, Hstep, Ht.
Qed.

Lemma init_mirrors (file : option string) (t0 : tracker) :
  init file = Some t0 → file_mirrors_data t0.
Proof.
  unfold init, file_mirrors_data.
  destruct (load_data file) as [d|] eqn:E; [|done]. by intros [= <-].
Qed.

Lemma run_mirrors (o : op) (t : tracker) :
  file_mirrors_data t → file_mirrors_data (snd (run o t)).
Proof.
  intros Ht. destruct (run_saves o t) as [->|[t' ->]]; [exact Ht|].
  apply load_data_dumps.
Qed.



Lemma run_dom (o : op) (t : tracker) :
  dom (data (snd (run o t))) = dom (data t) ∪ registered_names [o].
Proof.
  destruct o;
    try (rewrite update_keeps_dom by done; unfold registered_names; cbn;
         set_solver).
  cbn [run]. unfold register_user, registered_names.
  destruct (data t !! username) eqn:E; cbn.
  - apply (elem_of_dom_2 (D := gset string)) in E. set_solver.
  - rewrite dom_insert_L. set_solver.
Qed.

(** X2: no call removes a user, and only [register_user] adds one: after a
    sequence of calls the usernames are those from before and those
    [register_user] was called with. *)
Theorem usernames_after_calls (os : list op) (t : tracker) :
  dom (data (run_all os t)) = dom (data t) ∪ registered_names os.
Proof.
  revert t. induction os as [|o os IH]; intros t.
  - unfold registered_names. cbn. set_solver.
  - rewrite run_all_cons, IH, run_dom. unfold registered_names.
    destruct o; cbn; set_solver.
Qed.

Lemma run_append_only (o : op) (t : tracker) (u : string) (r : UserRecord) :
  data t !! u = Some r →
  ∃ r', data (snd (run o t)) !! u = Some r'
        ∧ symptoms r `prefix_of` symptoms r'
        ∧ reminders r `prefix_of` reminders r'.
Proof.
  intros Hr.
  assert (Hsame : ∃ r', data t !! u = Some r'
                        ∧ symptoms r `prefix_of` symptoms r'
                        ∧ reminders r `prefix_of` reminders r') by eauto.
  destruct o; try (by rewrite read_only_same); cbn [run].
  - unfold register_user. destruct (data t !! username) eqn:E; [done|].
    cbn [snd save_data data]. rewrite lookup_insert_ne; [done|]. congruence.
  - unfold set_cycle_details. destruct (data t !! username) eqn:E; [|done].
    destruct (strptime _); [|done]. cbn [snd save_data data].
    rewrite lookup_insert. case_decide; [|done]. subst.
    rewrite Hr in E. injection E as <-. eexists. split; [done|]. done.
  - unfold add_symptom. destruct (data t !! username) eqn:E; [|done].
    cbn [snd save_data data]. rewrite lookup_insert. case_decide; [|done].
    subst. rewrite Hr in E. injection E as <-. eexists. split; [done|].
    cbn. split; [by apply prefix_app_r|done].
  - unfold add_reminder. destruct (data t !! username) eqn:E; [|done].
    destruct (truthy _); [|done]. destruct (next_cycle_date _ _); [|done].
    destruct (timedelta _); [|done]. destruct (sub _ _); [|done].
    cbn [snd save_data data]. rewrite lookup_insert. case_decide; [|done].
    subst. rewrite Hr in E. injection E as <-. eexists. split; [done|].
    cbn. split; [done|by apply prefix_app_r].
Qed.

(** X3: the symptom and reminder sequences only grow at the end: after any
    sequence of calls a registered user is still registered, and the
    symptoms and reminders the record had are the first ones of the
    sequences it has, in the same order. *)
Theorem entries_append_only (os : list op) (t : tracker) (u : string)
    (r : UserRecord) (Hreg : data t !! u = Some r) :
  ∃ r', data (run_all os t) !! u = Some r'
        ∧ symptoms r `prefix_of` symptoms r'
        ∧ reminders r `prefix_of` reminders r'.
Proof.
  revert t r Hreg. induction os as [|o os IH]; intros t r Hreg.
  - exists r. done.
  - rewrite run_all_cons.
    destruct (run_append_only o t u r Hreg) as (r1 & Hr1 & Hs1 & Hm1).
    destruct (IH _ r1 Hr1) as (r' & Hr' & Hs' & Hm').
    exists r'. split; [exact Hr'|]. split; by etrans.
Qed.

Lemma entries_append_only_witness :
  let t1 := snd (register_user "alice" (mkTracker ∅ None)) in
  let t2 := snd (add_symptom (mkdate 2024 1 3) "alice" "cramps" t1) in
  let os := [SetCycleDetails "alice" "2024-01-01" 28;
             AddSymptom (mkdate 2024 1 4) "alice" "headache";
             RegisterUser "alice"] in
  data t2 !! "alice"
  = Some (mkUserRecord None 28 [Symptom.mk "cramps" "2024-01-03"] [])
  ∧ ∃ r', data (run_all os t2) !! "alice" = Some r'
          ∧ [Symptom.mk "cramps" "2024-01-03"] `prefix_of` symptoms r'.
Proof.
  intros t1 t2 os.
  assert (Hreg : data t2 !! "alice"
                 = Some (mkUserRecord None 28
                           [Symptom.mk "cramps" "2024-01-03"] []))
    by (vm_compute; reflexivity).
  split; [exact Hreg|].
  destruct (entries_append_only os t2 "alice" _ Hreg) as (r' & Hr' & Hs & _).
  exists r'. split; [exact Hr' | exact Hs].
Defined.

End RunFacts.

(** ** Calls that fail *)

Section Failures.
Import Datetime Calendar Runs.



Lemma run_dates_parse (o : op) (t : tracker) :
  dates_parse t → dates_parse (snd (run o t)).
Proof.
  intros Ht u r s.
  destruct o; try (rewrite read_only_same by done; apply Ht); cbn [run].
  - unfold register_user. destruct (data t !! username) eqn:E; [apply Ht|].
    cbn [snd save_data data]. rewrite lookup_insert.
    case_decide; [by intros [= <-]|apply Ht].
  - unfold set_cycle_details. destruct (data t !! username) eqn:E; [|apply Ht].
    destruct (strptime _) eqn:Es; [|apply Ht].
    cbn [snd save_data data]. rewrite lookup_insert.
    case_decide; [|apply Ht]. intros [= <-]. cbn. intros [= <-]. eauto.
  - unfold add_symptom. destruct (data t !! username) eqn:E; [|apply Ht].
    cbn [snd save_data data]. rewrite lookup_insert.
    case_decide; [|apply Ht]. intros [= <-]. cbn. by apply (Ht username).
  - unfold add_reminder. destruct (data t !! username) eqn:E; [|apply Ht].
    destruct (truthy _); [|apply Ht].
    destruct (next_cycle_date _ _); [|apply Ht].
    destruct (timedelta _); [|apply Ht].
    destruct (sub _ _); [|apply Ht].
    cbn [snd save_data data]. rewrite lookup_insert.
    case_decide; [|apply Ht]. intros [= <-]. cbn. by apply (Ht username).
Qed.

Lemma truthy_Some (o : option string) (s : string) :
  truthy o = Some s → o = Some s.
Proof. by destruct o as [[|c x]|]. Qed.

Lemma next_cycle_date_parsed (s : string) (n : Z) :
  is_Some (strptime s) → next_cycle_date s n ≠ Raised ValueError.
Proof.
  intros [d Hd]. unfold next_cycle_date. rewrite Hd.
  destruct (timedelta n); [|done]. by destruct (add d z).
Qed.



(** X6: a call that returns a message starting with [Error:] has changed
    nothing: the dictionary and the data file are as they were. *)
Theorem error_message_no_change (o : op) (t : tracker) (msg : string)
    (Hmsg : fst (run o t) = Returned msg)
    (Herror : String.prefix "Error:" msg = true) :
  snd (run o t) = t.
Proof.
  destruct o; try (by rewrite read_only_same); cbn [run] in *.
  - unfold register_user in *. destruct (data t !! username); [done|].
    cbn in Hmsg. injection Hmsg as <-. discriminate.
  - unfold set_cycle_details in *. destruct (data t !! username); [|done].
    destruct (strptime _); [|done].
    cbn in Hmsg. injection Hmsg as <-. discriminate.
  - unfold add_symptom in *. destruct (data t !! username); [|done].
    cbn in Hmsg. injection Hmsg as <-. discriminate.
  - unfold add_reminder in *. destruct (data t !! username); [|done].
    destruct (truthy _); [|done]. destruct (next_cycle_date _ _); [|done].
    destruct (timedelta _); [|done]. destruct (sub _ _); [|done].
    cbn in Hmsg. injection Hmsg as <-. discriminate.
Qed.

Lemma error_message_no_change_witness :
  let t1 := snd (register_user "alice" (mkTracker ∅ None)) in
  fst (run (AddReminder "alice" "Buy supplies" 5) t1)
  = Returned NO_CYCLE_DETAILS
  ∧ snd (run (AddReminder "alice" "Buy supplies" 5) t1) = t1.
Proof.
  intros t1.
  assert (H : fst (run (AddReminder "alice" "Buy supplies" 5) t1)
              = Returned NO_CYCLE_DETAILS) by (vm_compute; reflexivity).
  split; [exact H|].
  apply (error_message_no_change _ t1 NO_CYCLE_DETAILS H). reflexivity.
Defined.

End Failures.

(** ** How the operations compose *)

Section Composition.
Import Datetime Calendar Runs.

(** X7: [set_cycle_details] overwrites: when the second date parses, two
    calls for one username leave the tracker, dictionary and data file, as
    the second call alone would, whatever the first was given. *)
Theorem set_cycle_details_last_wins (t : tracker) (username d1 d2 : string)
    (n1 n2 : Z) (Hparse : is_Some (strptime d2)) :
  snd (set_cycle_details username d2 n2
         (snd (set_cycle_details username d1 n1 t)))
  = snd (set_cycle_details username d2 n2 t).
Proof.
  destruct Hparse as [x Hx]. unfold set_cycle_details at 2.
  destruct (data t !! username) as [r|] eqn:E; [|done].
  destruct (strptime d1); [|done]. cbn [snd].
  unfold set_cycle_details. cbn [save_data data DATA_FILE].
  rewrite lookup_insert_eq, E, Hx. cbn [snd symptoms reminders].
  by rewrite insert_insert_eq.
Qed.

Lemma set_cycle_details_last_wins_witness :
  let t1 := snd (register_user "alice" (mkTracker ∅ None)) in
  is_Some (strptime "2024-02-01")
  ∧ snd (set_cycle_details "alice" "2024-02-01" 30
           (snd (set_cycle_details "alice" "2024-01-01" 28 t1)))
    = snd (set_cycle_details "alice" "2024-02-01" 30 t1).
Proof.
  intros t1.
  assert (H : is_Some (strptime "2024-02-01")) by (by eexists).
  split; [exact H|].
  exact (set_cycle_details_last_wins t1 "alice" "2024-01-01" "2024-02-01"
           28 30 H).
Defined.

Lemma predict_reads_cycle_details (t t' : tracker) (username : string) :
  (∀ r, data t !! username = Some r →
        ∃ r', data t' !! username = Some r'
              ∧ last_cycle_date r' = last_cycle_date r
              ∧ cycle_length r' = cycle_length r) →
  (data t !! username = None → data t' !! username = None) →
  fst (predict_next_cycle username t') = fst (predict_next_cycle username t).
Proof.
  intros Hsome Hnone. unfold predict_next_cycle.
  destruct (data t !! username) as [r|] eqn:E.
  - destruct (Hsome r eq_refl) as (r' & -> & -> & ->).
    destruct (truthy _); [|done]. by destruct (next_cycle_date _ _).
  - by rewrite Hnone.
Qed.

(** X8: the prediction depends on the cycle details only: logging a
    symptom or adding a reminder, for the same user or another, does not
    change what [predict_next_cycle] gives. *)
Theorem prediction_ignores_entries (t : tracker) (username other : string)
    (now : date) (text : string) (days_before : Z) :
  fst (predict_next_cycle username (snd (add_symptom now other text t)))
  = fst (predict_next_cycle username t)
  ∧ fst (predict_next_cycle username
           (snd (add_reminder other text days_before t)))
    = fst (predict_next_cycle username t).
Proof.
  split; apply predict_reads_cycle_details.
  - intros r Hr. unfold add_symptom.
    destruct (data t !! other) as [r0|] eqn:E; [|eauto].
    cbn [snd save_data data]. rewrite lookup_insert. case_decide; [|eauto].
    subst. rewrite Hr in E. injection E as <-. eauto.
  - intros Hr. unfold add_symptom.
    destruct (data t !! other) as [r0|] eqn:E; [|done].
    cbn [snd save_data data]. rewrite lookup_insert_ne; [done|congruence].
  - intros r Hr. unfold add_reminder.
    destruct (data t !! other) as [r0|] eqn:E; [|eauto].
    destruct (truthy _); [|eauto]. destruct (next_cycle_date _ _); [|eauto].
    destruct (timedelta _); [|eauto]. destruct (sub _ _); [|eauto].
    cbn [snd save_data data]. rewrite lookup_insert. case_decide; [|eauto].
    subst. rewrite Hr in E. injection E as <-. eauto.
  - intros Hr. unfold add_reminder.
    destruct (data t !! other) as [r0|] eqn:E; [|done].
    destruct (truthy _); [|done]. destruct (next_cycle_date _ _); [|done].
    destruct (timedelta _); [|done]. destruct (sub _ _); [|done].
    cbn [snd save_data data]. rewrite lookup_insert_ne; [done|congruence].
Qed.

(** X9: a user [register_user] has just registered has nothing yet:
    [view_reminders] and [view_symptoms] return their empty messages and
    [predict_next_cycle] and [add_reminder] the no-cycle-details message. *)
Theorem new_user_has_nothing (t : tracker) (username : string)
    (Hnew : data t !! username = None) :
  let t' := snd (register_user username t) in
  view_reminders username t' = (Returned "No reminders set.", t')
  ∧ view_symptoms username t' = (Returned "No symptoms logged.", t')
  ∧ predict_next_cycle username t' = (Returned NO_CYCLE_DETAILS, t')
  ∧ ∀ text n,
      add_reminder username text n t' = (Returned NO_CYCLE_DETAILS, t').
Proof.
  rewrite (register_user_new username t Hnew). cbn [snd].
  unfold view_reminders, view_symptoms, predict_next_cycle, add_reminder.
  cbn [save_data data]. rewrite lookup_insert_eq. done.
Qed.

Lemma new_user_has_nothing_witness :
  let t := mkTracker ∅ None in
  let t' := snd (register_user "alice" t) in
  data t !! "alice" = None
  ∧ view_reminders "alice" t' = (Returned "No reminders set.", t')
  ∧ predict_next_cycle "alice" t' = (Returned NO_CYCLE_DETAILS, t').
Proof.
  intros t t'.
  assert (Hnew : data t !! "alice" = None) by reflexivity.
  destruct (new_user_has_nothing t "alice" Hnew) as (Hrem & _ & Hpred & _).
  split; [exact Hnew|]. split; [exact Hrem | exact Hpred].
Defined.

End Composition.

(** ** The dates of the reminders *)

Section ReminderDates.
Import Datetime Calendar Runs.

Lemma add_valid (d d' : date) (delta : Z) :
  add d delta = Some d' → valid d' = true.
Proof.
  unfold add. destruct (timedelta _) as [o|]; [|done].
  destruct (_ && _) eqn:E; [|done]. intros [= <-].
  apply andb_true_iff in E as [Hlo Hhi]. apply valid_ord2ymd. lia.
Qed.

Lemma run_reminders_iso (o : op) (t : tracker) :
  reminders_iso t → reminders_iso (snd (run o t)).
Proof.
  intros Ht u r e.
  destruct o; try (rewrite read_only_same by done; apply Ht); cbn [run].
  - unfold register_user. destruct (data t !! username) eqn:E; [apply Ht|].
    cbn [snd save_data data]. rewrite lookup_insert.
    case_decide; [|apply Ht]. intros [= <-]. cbn. by intros ?%elem_of_nil.
  - unfold set_cycle_details. destruct (data t !! username) eqn:E; [|apply Ht].
    destruct (strptime _); [|apply Ht].
    cbn [snd save_data data]. rewrite lookup_insert.
    case_decide; [|apply Ht]. intros [= <-]. cbn. by apply (Ht username).
  - unfold add_symptom. destruct (data t !! username) eqn:E; [|apply Ht].
    cbn [snd save_data data]. rewrite lookup_insert.
    case_decide; [|apply Ht]. intros [= <-]. cbn. by apply (Ht username).
  - unfold add_reminder. destruct (data t !! username) eqn:E; [|apply Ht].
    destruct (truthy _); [|apply Ht].
    destruct (next_cycle_date _ _); [|apply Ht].
    destruct (timedelta _); [|apply Ht].
    destruct (sub _ _) as [on|] eqn:Eon; [|apply Ht].
    cbn [snd save_data data]. rewrite lookup_insert.
    case_decide; [|apply Ht]. intros [= <-]. cbn.
    intros [Hold| ->%list_elem_of_singleton]%elem_of_app.
    + by apply (Ht username u0).
    + exists on. split; [|done]. by apply (add_valid _ _ _ Eon).
Qed.

(** A sequence of reminders dated in ISO form, as texts with dates. *)
Lemma reminders_as_dates (rs : list Reminder.t) :
  Forall (λ e, ∃ d, valid d = true ∧ Reminder.date e = isoformat d) rs →
  ∃ es : list (string * date),
    rs = map (λ '(text, d), Reminder.mk text (isoformat d)) es
    ∧ Forall (λ e, valid e.2 = true) es.
Proof.
  induction 1 as [|[text on] rs (d & Hd & Hon) _ (es & -> & Hes)].
  - by exists [].
  - exists ((text, d) :: es). cbn in Hon. subst on.
    split; [done|]. by constructor.
Qed.

Lemma sorted_dates (es : list (string * date)) :
  Forall (λ e, valid e.2 = true) es →
  StronglySorted (key_le Reminder.date)
    (map (λ '(text, d), Reminder.mk text (isoformat d)) es) →
  StronglySorted (λ a b, ymd2ord a.2 ≤ ymd2ord b.2) es.
Proof.
  induction 1 as [|[text d] es Hd Hes IH]; [constructor|].
  rewrite map_cons. intros [Hsorted Hhead]%StronglySorted_inv.
  constructor; [by apply IH|].
  rewrite Forall_forall in Hes. rewrite Forall_forall in Hhead.
  apply Forall_forall.
  intros [text' d'] Hin. cbn [snd].
  apply (key_le_iso (Reminder.mk text (isoformat d))
           (Reminder.mk text' (isoformat d')) d d'); [done| |done|done|].
  - by apply (Hes (text', d')).
  - apply Hhead.
    by apply (list_elem_of_fmap_2
                (λ '(text, d), Reminder.mk text (isoformat d)) es (text', d')).
Qed.

(** X10: [add_reminder] only writes ISO dates of the calendar, so from a
    dictionary whose reminders are so dated, as one without users is,
    after any sequence of calls [view_reminders] lists every reminder of
    the record once, in the order of the calendar. *)
Theorem view_reminders_chronological (t : tracker) (os : list op)
    (username : string) (r : UserRecord)
    (Hiso : reminders_iso t)
    (Hreg : data (run_all os t) !! username = Some r)
    (Hne : reminders r ≠ []) :
  ∃ es : list (string * date),
    view_reminders username (run_all os t)
    = (Returned
         (Builtins.join (String Json.newline "")
            (map (λ '(text, d), "- " +:+ text +:+ " on " +:+ isoformat d) es)),
       run_all os t)
    ∧ map (λ '(text, d), Reminder.mk text (isoformat d)) es ≡ₚ reminders r
    ∧ Forall (λ e, valid e.2 = true) es
    ∧ StronglySorted (λ a b, ymd2ord a.2 ≤ ymd2ord b.2) es.
Proof.
  pose proof (run_all_invariant reminders_iso run_reminders_iso os t Hiso)
    as Hinv.
  revert Hinv Hreg. generalize (run_all os t). clear t Hiso os.
  intros t Hinv Hreg.
  destruct (reminders_as_dates (Builtins.sorted Reminder.date (reminders r)))
    as (es & Hes & Hvalid).
  { apply Forall_forall. intros e He. rewrite sorted_perm in He.
    by apply (Hinv username r e). }
  exists es. split; [|split; [|split]].
  - rewrite (view_reminders_lines t username r Hreg Hne), Hes, map_map.
    do 3 f_equal. apply map_ext. by intros [text d].
  - rewrite <- Hes. apply sorted_perm.
  - exact Hvalid.
  - apply sorted_dates; [exact Hvalid|]. rewrite <- Hes. apply sorted_sorted.
Qed.

Lemma view_reminders_chronological_witness :
  let os := [RegisterUser "alice"; SetCycleDetails "alice" "2024-01-01" 28;
             AddReminder "alice" "Buy supplies" 5;
             AddReminder "alice" "Early" 15] in
  let t := mkTracker ∅ None in
  reminders_iso t
  ∧ ∃ es : list (string * date),
      fst (view_reminders "alice" (run_all os t))
      = Returned
          (Builtins.join (String Json.newline "")
             (map (λ '(text, d), "- " +:+ text +:+ " on " +:+ isoformat d) es))
      ∧ StronglySorted (λ a b, ymd2ord a.2 ≤ ymd2ord b.2) es.
Proof.
  intros os t.
  assert (Hiso : reminders_iso t) by (intros u r e; done).
  split; [exact Hiso|].
  destruct (view_reminders_chronological t os "alice"
              (mkUserRecord (Some "2024-01-01") 28 []
                 [Reminder.mk "Buy supplies" "2024-01-24";
                  Reminder.mk "Early" "2024-01-14"]) Hiso)
    as (es & Hview & _ & _ & Hsorted).
  - vm_compute. reflexivity.
  - discriminate.
  - exists es. split; [by rewrite Hview | exact Hsorted].
Defined.

End ReminderDates.

(** ** The menu loop *)

Section MainFacts.
Import Datetime Calendar Runs Main MainAux.

Lemma tracker_of_emit (evs : list event) (s : session) :
  tracker_of (emit evs s) = tracker_of s.
Proof. by destruct s as [[out e] t]. Qed.

Lemma ending_of_emit (evs : list event) (s : session) :
  ending_of (emit evs s) = ending_of s.
Proof. by destruct s as [[out e] t]. Qed.

(** Induction on the loop: a property of sessions that holds where the
    loop stops, that [emit] keeps and that a call passes on holds of every
    session. *)
Lemma loop_sessions (clock : nat → date) (Q : tracker → session → Prop) :
  (∀ t evs s, Q t s → Q t (emit evs s)) →
  (∀ t, Q t ([], RaisesEOFError, t)) →
  (∀ t evs, Q t (evs, Returns, t)) →
  (∀ t o prefix continue,
     (∀ t', Q t' (continue t')) → Q t (call prefix (run o t) continue)) →
  ∀ inputs k t, Q t (loop clock k inputs t).
Proof.
  intros Hemit Heof Hret Hcall inputs.
  assert (H : ∀ n inputs, (List.length inputs ≤ n)%nat →
                          ∀ k t, Q t (loop clock k inputs t));
    [|by apply (H (List.length inputs))].
  clear inputs. induction n as [|n IH]; intros inputs Hlen k t.
  { destruct inputs; [|cbn in Hlen; lia]. cbn [loop]. apply Hemit, Heof. }
  assert (IH1 : ∀ l0 inputs', inputs = l0 :: inputs' →
                              ∀ k t, Q t (loop clock k inputs' t)).
  { intros l0 inputs' -> k' t'. apply IH. cbn in Hlen. lia. }
  assert (IH2 : ∀ l0 l1 inputs', inputs = l0 :: l1 :: inputs' →
                                 ∀ k t, Q t (loop clock k inputs' t)).
  { intros l0 l1 inputs' -> k' t'. apply IH. cbn in Hlen. lia. }
  assert (IH3 : ∀ l0 l1 l2 inputs', inputs = l0 :: l1 :: l2 :: inputs' →
                                    ∀ k t, Q t (loop clock k inputs' t)).
  { intros l0 l1 l2 inputs' -> k' t'. apply IH. cbn in Hlen. lia. }
  assert (IH4 : ∀ l0 l1 l2 l3 inputs',
            inputs = l0 :: l1 :: l2 :: l3 :: inputs' →
            ∀ k t, Q t (loop clock k inputs' t)).
  { intros l0 l1 l2 l3 inputs' -> k' t'. apply IH. cbn in Hlen. lia. }
  clear IH Hlen.
  destruct inputs as [|l0 inputs]; cbn [loop]; apply Hemit; [apply Heof|].
  cbv zeta.
  repeat match goal with
         | |- Q _ (if ?b then _ else _) => destruct b
         end.
  - apply Hemit. destruct inputs as [|l1 inputs]; [apply Heof|].
    apply (Hcall t (RegisterUser (strip l1))). eauto.
  - apply Hemit. destruct inputs as [|l1 inputs]; [apply Heof|].
    apply Hemit. destruct inputs as [|l2 inputs]; [apply Heof|].
    apply Hemit. destruct inputs as [|l3 inputs]; [apply Heof|].
    destruct (int_of_str _) as [n'|]; [|apply Hemit; eauto].
    apply (Hcall t (SetCycleDetails (strip l1) (strip l2) n')). eauto.
  - apply Hemit. destruct inputs as [|l1 inputs]; [apply Heof|].
    apply Hemit. destruct inputs as [|l2 inputs]; [apply Heof|].
    apply (Hcall t (AddSymptom (clock (3 + k)%nat) (strip l1) (strip l2))).
    eauto.
  - apply Hemit. destruct inputs as [|l1 inputs]; [apply Heof|].
    apply Hemit. destruct inputs as [|l2 inputs]; [apply Heof|].
    apply Hemit. destruct inputs as [|l3 inputs]; [apply Heof|].
    destruct (int_of_str _) as [n'|]; [|apply Hemit; eauto].
    apply (Hcall t (AddReminder (strip l1) (strip l2) n')). eauto.
  - apply Hemit. destruct inputs as [|l1 inputs]; [apply Heof|].
    apply (Hcall t (ViewReminders (strip l1))). eauto.
  - apply Hemit. destruct inputs as [|l1 inputs]; [apply Heof|].
    apply (Hcall t (PredictNextCycle (strip l1))). eauto.
  - apply Hemit. destruct inputs as [|l1 inputs]; [apply Heof|].
    apply (Hcall t (ViewSymptoms (strip l1))). eauto.
  - apply Hret.
  - apply Hemit. eauto.
Qed.

Lemma run_raised_same (o : op) (t : tracker) (e : exn) :
  fst (run o t) = Raised e → snd (run o t) = t.
Proof.
  intros Hraise. destruct o; try (by rewrite read_only_same); cbn [run] in *.
  - unfold register_user in *. by destruct (data t !! username).
  - unfold set_cycle_details in *. destruct (data t !! username); [|done].
    by destruct (strptime _).
  - unfold add_symptom in *. by destruct (data t !! username).
  - unfold add_reminder in *.
    destruct (data t !! username); [|done]. destruct (truthy _); [|done].
    destruct (next_cycle_date _ _); [|done].
    destruct (timedelta _); [|done]. by destruct (sub _ _).
Qed.

(** The tracker of a session is the one a sequence of calls leaves. *)
Lemma loop_runs_calls (clock : nat → date) (inputs : list string) (k : nat)
    (t : tracker) :
  runs_calls t (loop clock k inputs t).
Proof.
  apply loop_sessions; clear.
  - intros t evs s (os & Ht & He). exists os.
    by rewrite tracker_of_emit, ending_of_emit.
  - intros t. by exists [].
  - intros t evs. by exists [].
  - intros t o prefix continue Hcont. unfold call.
    destruct (fst (run o t)) as [msg|e] eqn:Eo.
    + destruct (Hcont (snd (run o t))) as (os & Ht & He).
      exists (o :: os). by rewrite tracker_of_emit, ending_of_emit.
    + exists [o]. split; [done|]. cbn. intros e' [= <-]. exists o.
      by rewrite (run_raised_same o t e Eo).
Qed.

Lemma main_runs_calls (file : option string) (clock : nat → date)
    (inputs : list string) (s : session) :
  main file clock inputs = Some s →
  ∃ t0, init file = Some t0 ∧ runs_calls t0 s.
Proof.
  unfold main. destruct (init file) as [t0|]; [|done]. cbn.
  intros [= <-]. exists t0. split; [done|].
  destruct (loop_runs_calls clock inputs 0 t0) as (os & Ht & He).
  exists os. by rewrite tracker_of_emit, ending_of_emit.
Qed.

(** X11: however a session of the menu ends, by the exit choice, at the
    end of the input or by the exception of an operation, the data file
    then holds the dictionary the program had in memory: the next start
    finds it. *)
Theorem main_leaves_file_in_step (file : option string)
    (clock : nat → date) (inputs : list string) (s : session)
    (Hmain : main file clock inputs = Some s) :
  init (DATA_FILE (tracker_of s))
  = Some (mkTracker (data (tracker_of s)) (DATA_FILE (tracker_of s))).
Proof.
  destruct (main_runs_calls file clock inputs s Hmain)
    as (t0 & Hinit & os & -> & _).
  pose proof (run_all_invariant file_mirrors_data run_mirrors os t0
                (init_mirrors file t0 Hinit)) as H.
  unfold file_mirrors_data in H. unfold init. by rewrite H.
Qed.

Lemma main_leaves_file_in_step_witness :
  let inputs := ["1"; "alice"; "2"; "alice"; "9999-12-31"; "28";
                 "6"; "alice"; "8"] in
  ∃ s, main None (λ _, mkdate 2024 1 3) inputs = Some s
       ∧ ending_of s = Raises OverflowError
       ∧ init (DATA_FILE (tracker_of s))
         = Some (mkTracker (data (tracker_of s)) (DATA_FILE (tracker_of s))).
Proof.
  intros inputs.
  destruct (main None (λ _, mkdate 2024 1 3) inputs) as [s|] eqn:E;
    [|vm_compute in E; discriminate].
  exists s. split; [reflexivity|]. split.
  - vm_compute in E. injection E as <-. reflexivity.
  - exact (main_leaves_file_in_step None _ inputs s E).
Defined.

(** X12: a session that starts without a data file never ends by a
    [ValueError]: the dates it stores parse, so the only exception of an
    operation that can end it is [OverflowError]. *)
Theorem main_never_value_error (clock : nat → date) (inputs : list string)
    (s : session) (Hmain : main None clock inputs = Some s) :
  ending_of s ≠ Raises ValueError.
Proof.
  destruct (main_runs_calls None clock inputs s Hmain)
    as (t0 & [= <-] & os & Ht & He).
  intros Hend. destruct (He ValueError Hend) as [o Ho]. rewrite Ht in Ho.
  assert (H0 : dates_parse (mkTracker ∅ None)) by (intros u r x; done).
  pose proof (run_all_invariant dates_parse run_dates_parse os _ H0) as Hinv.
  revert Ho Hinv. generalize (run_all os (mkTracker ∅ None)). clear.
  intros t Ho Ht. destruct o; cbn [run] in Ho.
  - unfold register_user in Ho. by destruct (data t !! username).
  - unfold set_cycle_details in Ho. destruct (data t !! username); [|done].
    by destruct (strptime _).
  - unfold add_symptom in Ho. by destruct (data t !! username).
  - unfold add_reminder in Ho.
    destruct (data t !! username) as [r|] eqn:E; [|done].
    destruct (truthy _) as [x|] eqn:Ex; [|done]. apply truthy_Some in Ex.
    pose proof (next_cycle_date_parsed x (cycle_length r)
                  (Ht username r x E Ex)) as Hnext.
    destruct (next_cycle_date _ _) as [next|[|]]; [|done|done].
    destruct (timedelta _); [|done]. by destruct (sub _ _).
  - unfold view_reminders in Ho. destruct (data t !! username); [|done].
    by destruct (reminders u).
  - unfold predict_next_cycle in Ho.
    destruct (data t !! username) as [r|] eqn:E; [|done].
    destruct (truthy _) as [x|] eqn:Ex; [|done]. apply truthy_Some in Ex.
    pose proof (next_cycle_date_parsed x (cycle_length r)
                  (Ht username r x E Ex)) as Hnext.
    by destruct (next_cycle_date _ _) as [next|[|]].
  - unfold view_symptoms in Ho. destruct (data t !! username); [|done].
    by destruct (symptoms u).
Qed.

Lemma main_never_value_error_witness :
  let inputs := ["1"; "alice"; "2"; "alice"; "9999-12-31"; "28";
                 "6"; "alice"; "8"] in
  ∃ s, main None (λ _, mkdate 2024 1 3) inputs = Some s
       ∧ ending_of s ≠ Raises ValueError.
Proof.
  intros inputs.
  destruct (main None (λ _, mkdate 2024 1 3) inputs) as [s|] eqn:E;
    [|vm_compute in E; discriminate].
  exists s. split; [reflexivity|].
  exact (main_never_value_error _ inputs s E).
Defined.

End MainFacts.

(** ** White space around what is typed *)

Section Strip.
Import Datetime Main MainAux.

Lemma lstrip_trimmed (s : string) : trimmed_left (lstrip s).
Proof.
  induction s as [|c s IH]; [done|]. cbn.
  destruct (isspace c) eqn:E; [exact IH | exact E].
Qed.

Lemma lstrip_id (s : string) : trimmed_left s → lstrip s = s.
Proof. destruct s as [|c s]; [done|]. cbn. by intros ->. Qed.

Lemma rstrip_trimmed (s : string) : trimmed_left s → trimmed_left (rstrip s).
Proof.
  destruct s as [|c s]; [done|]. cbn. intros Hc.
  destruct (rstrip s); [by rewrite Hc | done].
Qed.

Lemma rstrip_idem (s : string) : rstrip (rstrip s) = rstrip s.
Proof.
  induction s as [|c s IH]; [done|]. cbn.
  destruct (rstrip s) as [|c' s'] eqn:E.
  - destruct (isspace c) eqn:Ec; [done|]. cbn. by rewrite Ec.
  - cbn [rstrip] in IH |- *. rewrite IH. reflexivity.
Qed.

Lemma strip_idem (s : string) : strip (strip s) = strip s.
Proof.
  unfold strip.
  rewrite (lstrip_id (rstrip (lstrip s)))
    by apply rstrip_trimmed, lstrip_trimmed.
  apply rstrip_idem.
Qed.

Lemma call_ext (prefix : string) (r : outcome string * tracker)
    (c1 c2 : tracker → session) :
  (∀ t, c1 t = c2 t) → call prefix r c1 = call prefix r c2.
Proof. intros H. unfold call. destruct (fst r); [by rewrite H | done]. Qed.

(** The loop reads every line through [strip]. *)
Lemma loop_strip (clock : nat → date) (inputs : list string) :
  ∀ k t, loop clock k inputs t = loop clock k (map strip inputs) t.
Proof.
  assert (H : ∀ n inputs, (List.length inputs ≤ n)%nat →
    ∀ k t, loop clock k inputs t = loop clock k (map strip inputs) t);
    [|by apply (H (List.length inputs))].
  clear inputs. induction n as [|n IH]; intros inputs Hlen k t.
  { destruct inputs; [done|cbn in Hlen; lia]. }
  destruct inputs as [|l0 inputs]; [done|].
  cbn [map loop]. rewrite strip_idem. cbv zeta.
  repeat first
    [ apply IH; cbn [List.length] in Hlen; lia
    | apply (f_equal (emit _))
    | apply call_ext; intros ?
    | match goal with
      | |- (if ?b then _ else _) = (if ?b then _ else _) => destruct b
      | |- match ?x with Some _ => _ | None => _ end
           = match ?x with Some _ => _ | None => _ end => destruct x
      | |- match ?l with [] => _ | _ :: _ => _ end
           = match map strip ?l with [] => _ | _ :: _ => _ end =>
          destruct l; cbn [map]; rewrite ?strip_idem
      end
    | reflexivity ].
Qed.

(** X13: the menu reads every line through [strip]: two inputs whose
    lines are the same once the white space around them is taken off give
    the same session, what is written, the ending and the tracker. *)
Theorem main_ignores_surrounding_space (file : option string)
    (clock : nat → date) (inputs inputs' : list string)
    (Hsame : map strip inputs = map strip inputs') :
  main file clock inputs = main file clock inputs'.
Proof.
  unfold main. destruct (init file) as [t|]; [|done]. cbn.
  by rewrite (loop_strip clock inputs), (loop_strip clock inputs'), Hsame.
Qed.

Lemma main_ignores_surrounding_space_witness :
  map strip ["1"; "alice"; "8"] = map strip [" 1"; "alice  "; " 8 "]
  ∧ main None (λ _, mkdate 2024 1 3) ["1"; "alice"; "8"]
    = main None (λ _, mkdate 2024 1 3) [" 1"; "alice  "; " 8 "].
Proof.
  assert (H : map strip ["1"; "alice"; "8"]
              = map strip [" 1"; "alice  "; " 8 "]) by reflexivity.
  split; [exact H|].
  exact (main_ignores_surrounding_space None _ _ _ H).
Defined.

End Strip.

(** ** Dates written and read back *)

Section DateRoundTrips.
Import Datetime Calendar Runs.

Lemma digit_dchar (a : Z) : 0 ≤ a ≤ 9 → digit (dchar a) = Some a.
Proof.
  intros Ha. unfold digit, dchar. rewrite N_ascii_embedding by lia.
  rewrite Z2N.id by lia.
  destruct (Z.leb_spec 48 (48 + a)); [|lia].
  destruct (Z.leb_spec (48 + a) 57); [|lia]. cbn. f_equal. lia.
Qed.

Lemma re_Y_digits4 {A : Type} (y : Z) (r : string)
    (k : Z → string → option A) :
  0 ≤ y ≤ 9999 → re_Y (digits4 y +:+ r) k = k y r.
Proof.
  intros Hy. unfold digits4. rewrite !append_head, append_empty.
  unfold re_Y. rewrite !digit_dchar by (Z.div_mod_to_equations; lia).
  f_equal. Z.div_mod_to_equations. lia.
Qed.

(** The month and the day of an ISO date, read by the format. *)
Lemma month_day_parse (y m dd : Z) :
  1 ≤ m ≤ 12 → 1 ≤ dd ≤ 31 →
  re_m (digits2 m +:+ "-" +:+ digits2 dd)
    (λ m s, re_lit "-" s (λ s, re_d s (λ d r, Some (y, m, d, r))))
  = Some (y, m, dd, "").
Proof.
  intros Hm Hd.
  assert (Hms : m = 1 ∨ m = 2 ∨ m = 3 ∨ m = 4 ∨ m = 5 ∨ m = 6 ∨ m = 7
                ∨ m = 8 ∨ m = 9 ∨ m = 10 ∨ m = 11 ∨ m = 12) by lia.
  assert (Hds : dd = 1 ∨ dd = 2 ∨ dd = 3 ∨ dd = 4 ∨ dd = 5 ∨ dd = 6 ∨ dd = 7
                ∨ dd = 8 ∨ dd = 9 ∨ dd = 10 ∨ dd = 11 ∨ dd = 12 ∨ dd = 13
                ∨ dd = 14 ∨ dd = 15 ∨ dd = 16 ∨ dd = 17 ∨ dd = 18 ∨ dd = 19
                ∨ dd = 20 ∨ dd = 21 ∨ dd = 22 ∨ dd = 23 ∨ dd = 24 ∨ dd = 25
                ∨ dd = 26 ∨ dd = 27 ∨ dd = 28 ∨ dd = 29 ∨ dd = 30 ∨ dd = 31)
    by lia.
  clear Hm Hd.
  repeat (destruct Hms as [->|Hms]); try subst m;
    repeat (destruct Hds as [->|Hds]); try subst dd; reflexivity.
Qed.

(** [strptime(str(d), "%Y-%m-%d")] is [d]. *)
Lemma strptime_isoformat (d : date) :
  valid d = true → strptime (isoformat d) = Some d.
Proof.
  intros Hv. rewrite isoformat_digits by done.
  pose proof (valid_fields d Hv) as (Hy & Hm & Hd).
  pose proof (days_in_month_le_31 (year d) (month d)) as H31.
  unfold strptime, match_format. rewrite re_Y_digits4 by lia.
  change (re_lit "-" ("-" +:+ ?x) ?k) with (k x).
  cbv beta. rewrite month_day_parse by lia.
  unfold make_date, valid, valid_day in *. rewrite <- !andb_assoc in Hv.
  rewrite <- !andb_assoc, Hv. by destruct d.
Qed.



Lemma ymd2ord_inj (d1 d2 : date) :
  valid d1 = true → valid d2 = true → ymd2ord d1 = ymd2ord d2 → d1 = d2.
Proof.
  intros Hv1 Hv2 Hord.
  destruct (Z.lt_trichotomy (date_key d1) (date_key d2)) as [Hlt|[Heq|Hgt]].
  - pose proof (ymd2ord_lt d1 d2 Hv1 Hv2 Hlt). lia.
  - by apply date_key_inj.
  - pose proof (ymd2ord_lt d2 d1 Hv2 Hv1 Hgt). lia.
Qed.

(** [date.fromordinal(d.toordinal()) == d] *)
Lemma ord2ymd_ymd2ord (d : date) : valid d = true → ord2ymd (ymd2ord d) = d.
Proof.
  intros Hv. apply ymd2ord_inj; [|done|apply ymd2ord_ord2ymd].
  by apply valid_ord2ymd, ymd2ord_range.
Qed.

(** X15: going the cycle length forward and back gives the date again: a
    reminder asked [cycle_length] days before the next cycle is dated on
    the last cycle date, when the next cycle date is one [datetime] can
    hold. *)
Theorem reminder_on_last_cycle_date (t : tracker)
    (username reminder s : string) (r : UserRecord) (d : date)
    (Hreg : data t !! username = Some r)
    (Hset : last_cycle_date r = Some s)
    (Hparse : strptime s = Some d)
    (Hnext : 0 < ymd2ord d + cycle_length r ≤ MAXORDINAL) :
  fst (add_reminder username reminder (cycle_length r) t)
  = Returned ("Reminder '" +:+ reminder +:+ "' added for " +:+ username
              +:+ " on " +:+ isoformat d +:+ ".")
  ∧ data (snd (add_reminder username reminder (cycle_length r) t)) !! username
    = Some (mkUserRecord (last_cycle_date r) (cycle_length r) (symptoms r)
              (reminders r ++ [Reminder.mk reminder (isoformat d)])).
Proof.
  pose proof (strptime_valid s d Hparse) as Hv.
  pose proof (ymd2ord_range d Hv) as Hrange.
  pose proof (add_reminder_ok t username reminder s (cycle_length r) r d
                Hreg Hset Hparse Hnext) as Hadd.
  replace (ymd2ord d + cycle_length r - cycle_length r) with (ymd2ord d)
    in Hadd by lia.
  rewrite (ord2ymd_ymd2ord d Hv) in Hadd. cbv zeta in Hadd.
  rewrite (Hadd Hrange). split; [reflexivity|]. apply lookup_insert_eq.
Qed.

Lemma reminder_on_last_cycle_date_witness :
  let t1 := snd (register_user "alice" (mkTracker ∅ None)) in
  let t2 := snd (set_cycle_details "alice" "2024-1-5" 28 t1) in
  strptime "2024-1-5" = Some (mkdate 2024 1 5)
  ∧ fst (add_reminder "alice" "Again" 28 t2)
    = Returned "Reminder 'Again' added for alice on 2024-01-05.".
Proof.
  intros t1 t2.
  assert (Hparse : strptime "2024-1-5" = Some (mkdate 2024 1 5))
    by reflexivity.
  split; [exact Hparse|].
  refine (proj1 (reminder_on_last_cycle_date t2 "alice" "Again" "2024-1-5"
                   (mkUserRecord (Some "2024-1-5") 28 [] []) (mkdate 2024 1 5)
                   _ eq_refl Hparse _)).
  - vm_compute. reflexivity.
  - vm_compute. split; [reflexivity | discriminate].
Defined.

End DateRoundTrips.

(** ** A data file that does not decode *)

Section CorruptedFile.
Import Runs.



End CorruptedFile.
